(** * The server singleton coordinator ([ServerManager.js])

    A shallow embedding of
    [packages/neo-one-server-client/src/ServerManager.js]: the lock file
    [server.pid], the reconciliation of the persisted owner with the process
    table and the version handshake, and the idempotent [start].

    The asynchronous methods are embedded in a state-and-exception monad over
    a [World] that holds the lock file, one counter per collaborator (so that
    the n-th answer of a collaborator may differ from the previous one) and
    the log of the collaborator calls the code made.  The polling loops are
    fuelled; running out of fuel is a third outcome, distinct from returning
    and from throwing. *)

From Stdlib Require Import ZArith List String Ascii Bool Lia DecimalString DecimalPos.
Import ListNotations.
Local Open Scope string_scope.
Local Open Scope Z_scope.

(** * JavaScript values *)

(** A JavaScript number that holds a process identifier: a double whose
    value is the integer [z], an infinity, or [NaN]; [-0] is identified with
    [0]. *)
Inductive JsNum : Type :=
| Num (z : Z)
| Infinity (negative : bool)
| NaN.

(** [a === b] on numbers: [NaN] is different from everything, itself included. *)
Definition strictEq (a b : JsNum) : bool :=
  match a, b with
  | Num x, Num y => x =? y
  | Infinity x, Infinity y => Bool.eqb x y
  | _, _ => false
  end.

(** The double nearest to a mathematical integer: the integer itself below
    2^53; beyond, the 53 leading bits with the rest rounded to nearest, ties
    to the even mantissa; an infinity from 2^1024 on. *)
Definition toNumber (z : Z) : JsNum :=
  let a := Z.abs z in
  if a <? 9007199254740992 then Num z
  else
    let e := Z.log2 a - 52 in
    let mantissa := Z.shiftr a e in
    let rest := a - Z.shiftl mantissa e in
    let half := Z.shiftl 1 (e - 1) in
    let rounded :=
      if (half <? rest) || ((rest =? half) && Z.odd mantissa)
      then mantissa + 1
      else mantissa in
    let value := Z.shiftl rounded e in
    if Z.shiftl 1 1024 <=? value then Infinity (z <? 0)
    else Num (Z.sgn z * value).

(** An [Error] object; [code] is the field [error.code], undefined ([None])
    for errors that are not system errors. *)
Record JsError : Type := mkError {
  code : option string;
  message : string
}.

(** [error.code === 'ENOENT'] *)
Definition isENOENT (error : JsError) : bool :=
  match code error with
  | Some c => String.eqb c "ENOENT"
  | None => false
  end.

(** * [parseInt(string, 10)]

    The lock file is read with the ['utf8'] encoding, so the model's string is
    the sequence of bytes of the file and the white space that [parseInt]
    skips is recognised on the UTF-8 encoding of the ECMAScript [WhiteSpace]
    and [LineTerminator] code points. *)
Module ParseInt.

Definition byte (c : ascii) : N := N_of_ascii c.

(** TAB, LF, VT, FF, CR, SP *)
Definition isSpace1 (c : ascii) : bool :=
  let n := byte c in
  (((9 <=? n) && (n <=? 13)) || (n =? 32))%N.

(** U+00A0 *)
Definition isSpace2 (c1 c2 : ascii) : bool :=
  ((byte c1 =? 194) && (byte c2 =? 160))%N.

(** U+1680, U+2000..U+200A, U+2028, U+2029, U+202F, U+205F, U+3000, U+FEFF *)
Definition isSpace3 (c1 c2 c3 : ascii) : bool :=
  let a := byte c1 in
  let b := byte c2 in
  let c := byte c3 in
  (((a =? 225) && (b =? 154) && (c =? 128))
   || ((a =? 226) && (b =? 128)
       && (((128 <=? c) && (c <=? 138)) || (c =? 168) || (c =? 169) || (c =? 175)))
   || ((a =? 226) && (b =? 129) && (c =? 159))
   || ((a =? 227) && (b =? 128) && (c =? 128))
   || ((a =? 239) && (b =? 187) && (c =? 191)))%N.

(** Step 2 of [parseInt]: drop the leading white space. *)
Fixpoint trimStart (s : string) : string :=
  match s with
  | String c1 r1 =>
      if isSpace1 c1 then trimStart r1
      else
        match r1 with
        | String c2 r2 =>
            if isSpace2 c1 c2 then trimStart r2
            else
              match r2 with
              | String c3 r3 =>
                  if isSpace3 c1 c2 c3 then trimStart r3 else s
              | EmptyString => s
              end
        | EmptyString => s
        end
  | EmptyString => s
  end.

(** The value of a radix-10 digit. *)
Definition digitValue (c : ascii) : option Z :=
  let n := byte c in
  if ((48 <=? n) && (n <=? 57))%N then Some (Z.of_N n - 48) else None.

(** The longest prefix of radix-10 digits, read left to right; [acc] is
    [None] as long as no digit has been seen. *)
Fixpoint scanDigits (s : string) (acc : option Z) : option Z :=
  match s with
  | String c r =>
      match digitValue c with
      | Some d =>
          scanDigits r (Some (10 * match acc with Some a => a | None => 0 end + d))
      | None => acc
      end
  | EmptyString => acc
  end.

(** Steps 3 and 4 of [parseInt]: the sign and the rest. *)
Definition splitSign (s : string) : Z * string :=
  match s with
  | String "-" r => (-1, r)
  | String "+" r => (1, r)
  | _ => (1, s)
  end.

(** [parseInt(s, 10)]: white space, an optional sign, then digits; [NaN]
    when there is no digit.  With radix 10 no [0x] prefix is recognised.  The
    result is a Number: the double nearest to the signed value of the
    digits. *)
Definition parseInt (s : string) : JsNum :=
  let '(sign, body) := splitSign (trimStart s) in
  match scanDigits body None with
  | Some n => toNumber (sign * n)
  | None => NaN
  end.

(** What the specification calls a decimal integer: the digits of the
    numeral, most significant first, read by Horner's scheme from the least
    significant end. *)
Fixpoint littleEndian (ds : list Z) : Z :=
  match ds with
  | [] => 0
  | d :: ds' => d + 10 * littleEndian ds'
  end.

Definition decimalValue (ds : list Z) : Z := littleEndian (rev ds).

(** The character of a digit [0..9]. *)
Definition digitChar (d : Z) : ascii := ascii_of_N (Z.to_N (48 + d)).

Fixpoint numeral (ds : list Z) : string :=
  match ds with
  | [] => EmptyString
  | d :: ds' => String (digitChar d) (numeral ds')
  end.

Definition isDigit (d : Z) : Prop := 0 <= d <= 9.

(** [rest] does not go on with a digit. *)
Definition stopsNumeral (rest : string) : Prop :=
  match rest with
  | String c _ => digitValue c = None
  | EmptyString => True
  end.

(** Reading the digits left to right is Horner's scheme from the most
    significant end. *)
Definition shiftIn (acc d : Z) : Z := 10 * acc + d.

End ParseInt.

(** [`${pid}`]: the plain decimal text of an integer (what JavaScript prints
    for magnitudes below 10^21). *)
Definition numberToString (n : JsNum) : string :=
  match n with
  | Num z => NilZero.string_of_int (Z.to_int z)
  | Infinity false => "Infinity"
  | Infinity true => "-Infinity"
  | NaN => "NaN"
  end.

(** * The world the coordinator runs in *)

(** The file at [pidPath], as [fs.readFile] sees it: missing, readable with
    some content, or present but failing to be read with a system error. *)
Inductive FileState : Type :=
| Absent
| Present (contents : string)
| Unreadable (error : JsError).

(** What a promise of a collaborator settles to. *)
Inductive Reply (A : Type) : Type :=
| Resolved (a : A)
| Rejected (error : JsError).
Arguments Resolved {A} a.
Arguments Rejected {A} error.

(** The caller's [onStart] function, known by its identity only: what it does
    is the caller's business. *)
Definition Callback : Type := nat.

(** The calls with an effect that the coordinator makes, as they are logged. *)
Inductive Event : Type :=
| FsReadFile
| FsRemove
| FsEnsureDir
| FsWriteFile (data : string)
| ClientGetVersion (port : Z)
| ClientWait (port : Z) (timeoutMs : Z)
| SetTimeout (ms : Z)
| KillProcess (pid : JsNum)
| Spawn (cmd : string) (args : list string) (detached : bool) (stdio : string)
| Unref (childPid : Z)
| Invoke (f : Callback).

(** Modelled from the spec: the collaborators of section 6, whose code is not
    part of [ServerManager.js].  [isRunning] is a query that never throws,
    [spawn] returns the child's identifier at once, [getVersion] and [wait]
    settle to a value or fail, [utils.nowSeconds] reads a clock.  Each answer
    may depend on how many times the collaborator was asked before. *)
Record Env : Type := mkEnv {
  processPid : Z;                                  (* process.pid *)
  nowSeconds : nat -> Z;                           (* utils.nowSeconds() *)
  isRunning : nat -> JsNum -> bool;                (* isRunning(pid) *)
  clientGetVersion : Z -> nat -> Reply string;     (* new Client({port}).getVersion() *)
  clientWait : Z -> Z -> nat -> Reply unit;        (* new Client({port}).wait(ms) *)
  childPid : nat -> Z                              (* spawn(...).pid *)
}.

Record World : Type := mkWorld {
  pidFile : FileState;      (* the file at pidPath *)
  clockReads : nat;         (* calls of utils.nowSeconds so far *)
  livenessQueries : nat;    (* calls of isRunning so far *)
  versionQueries : nat;     (* calls of getVersion so far *)
  probes : nat;             (* calls of wait so far *)
  spawned : nat;            (* calls of spawn so far *)
  trace : list Event        (* the log, most recent call first *)
}.

Definition log (e : Event) (w : World) : World :=
  mkWorld (pidFile w) (clockReads w) (livenessQueries w) (versionQueries w)
          (probes w) (spawned w) (e :: trace w).

Definition setPidFile (f : FileState) (w : World) : World :=
  mkWorld f (clockReads w) (livenessQueries w) (versionQueries w)
          (probes w) (spawned w) (trace w).

Definition tickClock (w : World) : World :=
  mkWorld (pidFile w) (S (clockReads w)) (livenessQueries w) (versionQueries w)
          (probes w) (spawned w) (trace w).

Definition tickLiveness (w : World) : World :=
  mkWorld (pidFile w) (clockReads w) (S (livenessQueries w)) (versionQueries w)
          (probes w) (spawned w) (trace w).

Definition tickVersion (w : World) : World :=
  mkWorld (pidFile w) (clockReads w) (livenessQueries w) (S (versionQueries w))
          (probes w) (spawned w) (trace w).

Definition tickProbe (w : World) : World :=
  mkWorld (pidFile w) (clockReads w) (livenessQueries w) (versionQueries w)
          (S (probes w)) (spawned w) (trace w).

Definition tickSpawn (w : World) : World :=
  mkWorld (pidFile w) (clockReads w) (livenessQueries w) (versionQueries w)
          (probes w) (S (spawned w)) (trace w).

(** * The monad of asynchronous methods *)

Inductive Outcome (A : Type) : Type :=
| Returned (a : A)
| Thrown (error : JsError)
| OutOfFuel.
Arguments Returned {A} a.
Arguments Thrown {A} error.
Arguments OutOfFuel {A}.

Definition M (A : Type) : Type := World -> Outcome A * World.

Definition ret {A : Type} (a : A) : M A := fun w => (Returned a, w).

Definition throw {A : Type} (error : JsError) : M A := fun w => (Thrown error, w).

Definition outOfFuel {A : Type} : M A := fun w => (OutOfFuel, w).

Definition bind {A B : Type} (m : M A) (k : A -> M B) : M B :=
  fun w =>
    match m w with
    | (Returned a, w') => k a w'
    | (Thrown error, w') => (Thrown error, w')
    | (OutOfFuel, w') => (OutOfFuel, w')
    end.

(** [try { m } catch (error) { handler }] *)
Definition tryCatch {A : Type} (m : M A) (handler : JsError -> M A) : M A :=
  fun w =>
    match m w with
    | (Thrown error, w') => handler error w'
    | settled => settled
    end.

Notation "x <- m ;; k" := (bind m (fun x => k))
  (at level 61, m at next level, right associativity).
Notation "m ;; k" := (bind m (fun _ => k))
  (at level 61, right associativity).

(** A block that either returns from the enclosing function or falls through
    to the statement after it. *)
Inductive Flow (R A : Type) : Type :=
| Return (r : R)
| Continue (a : A).
Arguments Return {R A} r.
Arguments Continue {R A} a.

(** The thrown error of [fs.readFile] on a missing file. *)
Definition enoent : JsError :=
  mkError (Some "ENOENT") "ENOENT: no such file or directory".

(** * The primitives

    One definition per call that the methods make.  [fs.readFile],
    [getVersion] and [wait] may throw, and the code catches them; the other
    calls ([fs.remove], [fs.ensureDir], [fs.writeFile], [spawn], [unref],
    [setTimeout], the callback) have no handler around them and are taken to
    complete. *)
Section Primitives.

Variable env : Env.

(** [utils.nowSeconds()] *)
Definition now : M Z :=
  fun w => (Returned (nowSeconds env (clockReads w)), tickClock w).

(** [isRunning(pid)] *)
Definition running (pid : JsNum) : M bool :=
  fun w => (Returned (isRunning env (livenessQueries w) pid), tickLiveness w).

(** [await fs.readFile(this.pidPath, 'utf8')] *)
Definition readFile : M string :=
  fun w =>
    let w' := log FsReadFile w in
    match pidFile w with
    | Absent => (Thrown enoent, w')
    | Present contents => (Returned contents, w')
    | Unreadable error => (Thrown error, w')
    end.

(** [await fs.remove(this.pidPath)]: the file is gone afterwards, whether
    or not it was there. *)
Definition remove : M unit :=
  fun w => (Returned tt, setPidFile Absent (log FsRemove w)).

(** [await fs.ensureDir(path.dirname(this.pidPath))] *)
Definition ensureDir : M unit :=
  fun w => (Returned tt, log FsEnsureDir w).

(** [await fs.writeFile(this.pidPath, data)] *)
Definition writeFile (data : string) : M unit :=
  fun w => (Returned tt, setPidFile (Present data) (log (FsWriteFile data) w)).

Definition settle {A : Type} (r : Reply A) (w : World) : Outcome A * World :=
  match r with
  | Resolved a => (Returned a, w)
  | Rejected error => (Thrown error, w)
  end.

(** [await client.getVersion()] *)
Definition getVersion (port : Z) : M string :=
  fun w =>
    settle (clientGetVersion env port (versionQueries w))
           (tickVersion (log (ClientGetVersion port) w)).

(** [await client.wait(ms)] *)
Definition wait (port ms : Z) : M unit :=
  fun w =>
    settle (clientWait env port ms (probes w))
           (tickProbe (log (ClientWait port ms) w)).

(** [await new Promise(resolve => setTimeout(() => resolve(), ms))] *)
Definition sleep (ms : Z) : M unit :=
  fun w => (Returned tt, log (SetTimeout ms) w).

(** Modelled from the spec: the Process Terminator of section 6,
    [killProcess(pid) -> void] of [@neo-one/server-plugin], whose code is not
    part of [ServerManager.js]; the call is logged and completes. *)
Definition killProcess (pid : JsNum) : M unit :=
  fun w => (Returned tt, log (KillProcess pid) w).

(** [spawn(cmd, args, { detached, stdio })], giving [child.pid] *)
Definition spawn (cmd : string) (args : list string) (detached : bool)
           (stdio : string) : M Z :=
  fun w =>
    (Returned (childPid env (spawned w)),
     tickSpawn (log (Spawn cmd args detached stdio) w)).

(** [child.unref()] *)
Definition unref (child : Z) : M unit :=
  fun w => (Returned tt, log (Unref child) w).

(** [onStart()] *)
Definition invoke (f : Callback) : M unit :=
  fun w => (Returned tt, log (Invoke f) w).

End Primitives.

(** * [ServerManager.js] *)

(** [binary: Binary], as far as [start] looks into it. *)
Record Binary : Type := mkBinary {
  cmd : string;
  firstArgs : list string
}.

(** The fields of the class. *)
Record ServerManager : Type := mkServerManager {
  _dataPath : string;
  _serverVersion : string
}.

(** [{| pid: number, started: boolean |}] *)
Record StartResult : Type := mkStartResult {
  pid : JsNum;
  started : bool
}.

Section Coordinator.

Variable env : Env.

(** The loop of [isSameVersion]: each successful query returns from the
    function, a failed one is caught and the condition is tested again. *)
Fixpoint isSameVersionLoop (fuel : nat) (port : Z) (expectedVersion : string)
         (startTime : Z) : M bool :=
  match fuel with
  | O => outOfFuel
  | S fuel' =>
      t <- now env ;;
      if t - startTime <=? 5 then
        step <- tryCatch
                  (version <- getVersion env port ;;
                   ret (Return (String.eqb version expectedVersion)))
                  (fun _ => ret (Continue tt)) ;;
        match step with
        | Return same => ret same
        | Continue _ => isSameVersionLoop fuel' port expectedVersion startTime
        end
      else ret false
  end.

Definition isSameVersion (fuel : nat) (port : Z) (expectedVersion : string)
  : M bool :=
  startTime <- now env ;;
  isSameVersionLoop fuel port expectedVersion startTime.

(** [while (!isRunning(pid) && utils.nowSeconds() - startTime <= 5)]: the
    clock is read only when the process is not yet seen. *)
Fixpoint waitRunningLoop (fuel : nat) (child : JsNum) (startTime : Z) : M unit :=
  match fuel with
  | O => outOfFuel
  | S fuel' =>
      alive <- running env child ;;
      if negb alive then
        t <- now env ;;
        if t - startTime <=? 5 then
          sleep 100 ;;
          waitRunningLoop fuel' child startTime
        else ret tt
      else ret tt
  end.

Definition waitRunning (fuel : nat) (child : JsNum) : M unit :=
  startTime <- now env ;;
  waitRunningLoop fuel child startTime.

(** The loop of [waitReachable] together with the statement after it, which
    is reached when the condition fails. *)
Fixpoint waitReachableLoop (fuel : nat) (port : Z) (startTime : Z)
         (lastError : option JsError) : M unit :=
  match fuel with
  | O => outOfFuel
  | S fuel' =>
      t <- now env ;;
      if t - startTime <=? 30 then
        step <- tryCatch
                  (wait env port 1000 ;;
                   ret (Return tt))
                  (fun error =>
                     sleep 100 ;;
                     ret (Continue error)) ;;
        match step with
        | Return _ => ret tt
        | Continue error =>
            waitReachableLoop fuel' port startTime (Some error)
        end
      else
        match lastError with
        | Some error => throw error
        | None => ret tt
        end
  end.

Definition waitReachable (fuel : nat) (port : Z) : M unit :=
  startTime <- now env ;;
  waitReachableLoop fuel port startTime None.

Variable self : ServerManager.

Definition getServerPID : M (option JsNum) :=
  read <- tryCatch
            (pidContents <- readFile ;;
             ret (Continue pidContents))
            (fun error =>
               if isENOENT error then ret (Return None)
               else throw error) ;;
  match read with
  | Return r => ret r
  | Continue pidContents =>
      tryCatch
        (ret (Some (ParseInt.parseInt pidContents)))
        (fun _ =>
           remove ;;
           ret None)
  end.

Definition kill (optionsIn : option JsNum) : M unit :=
  target <- match optionsIn with
            | Some p => ret (Some p)
            | None => getServerPID
            end ;;
  match target with
  | None => ret tt
  | Some p => killProcess p
  end.

(** [pid === process.pid], for a [pid] that may be [null] *)
Definition isOwnPid (owner : option JsNum) : bool :=
  match owner with
  | Some p => strictEq p (Num (processPid env))
  | None => false
  end.

Definition checkAlive (fuel : nat) (port : Z) : M (option JsNum) :=
  owner <- getServerPID ;;
  if isOwnPid owner then ret owner
  else
    match owner with
    | Some p =>
        alive <- running env p ;;
        checked <- (if alive then
                      sameVersion <- isSameVersion fuel port (_serverVersion self) ;;
                      if sameVersion then ret (Return (Some p))
                      else
                        kill (Some p) ;;
                        ret (Continue tt)
                    else ret (Continue tt)) ;;
        match checked with
        | Return r => ret r
        | Continue _ =>
            remove ;;
            ret None
        end
    | None => ret None
    end.

Definition start (fuel : nat) (port : Z) (binary : Binary)
           (onStart : option Callback) : M StartResult :=
  owner <- checkAlive fuel port ;;
  match owner with
  | Some p => ret (mkStartResult p false)
  | None =>
      match onStart with
      | Some f => invoke f
      | None => ret tt
      end ;;
      child <- spawn env (cmd binary) (firstArgs binary ++ ["start"; "server"])
                     true "ignore" ;;
      unref child ;;
      waitRunning fuel (Num child) ;;
      waitReachable fuel port ;;
      ret (mkStartResult (Num child) true)
  end.

Definition writePID (p : JsNum) : M unit :=
  ensureDir ;;
  writeFile (numberToString p).

End Coordinator.

(** A world in which nothing has happened yet. *)
Definition initial (f : FileState) : World := mkWorld f 0 0 0 0 0 [].


(** * Worlds that the methods pass through *)

(** The world in which [checkAlive] starts the version handshake: the file
    has been read and the Liveness Oracle asked once. *)
Definition handshakeEntry (w : World) : World := tickLiveness (log FsReadFile w).

Section Retries.

Variable port : Z.

(** One failed probe: the test of the condition, the probe, the back-off. *)
Definition retry (w : World) : World :=
  log (SetTimeout 100) (tickProbe (log (ClientWait port 1000) (tickClock w))).

Fixpoint retried (n : nat) (w : World) : World :=
  match n with
  | O => w
  | S n' => retried n' (retry w)
  end.

(** The probe that succeeds, after the test of the condition. *)
Definition reached (w : World) : World :=
  tickProbe (log (ClientWait port 1000) (tickClock w)).

(** The calls logged by [n] failed probes, most recent first. *)
Fixpoint backoffs (n : nat) : list Event :=
  match n with
  | O => []
  | S n' => SetTimeout 100 :: ClientWait port 1000 :: backoffs n'
  end.

(** The error that the statement after the loop looks at, once [n] probes
    have failed with [errors 0], ..., [errors (n - 1)]. *)
Definition lastErrorAfter (errors : nat -> JsError) (lastError : option JsError)
           (n : nat) : option JsError :=
  match n with
  | O => lastError
  | S n' => Some (errors n')
  end.

End Retries.

Section Launch.

Variable env : Env.
Variable binary : Binary.
Variable onStart : option Callback.

(** The world after the callback, the launch and [unref]. *)
Definition launched (w : World) : World :=
  let announced := match onStart with
                   | Some f => log (Invoke f) w
                   | None => w
                   end in
  log (Unref (childPid env (spawned w)))
      (tickSpawn (log (Spawn (cmd binary) (firstArgs binary ++ ["start"; "server"])
                             true "ignore")
                      announced)).

End Launch.

(** * Classes of logged calls *)

Definition isClientCall (e : Event) : bool :=
  match e with
  | ClientGetVersion _ | ClientWait _ _ => true
  | _ => false
  end.

Definition isKill (e : Event) : bool :=
  match e with
  | KillProcess _ => true
  | _ => false
  end.

(** The two calls of [writePID]. *)
Definition isWrite (e : Event) : bool :=
  match e with
  | FsEnsureDir | FsWriteFile _ => true
  | _ => false
  end.

(** The callback and the Launcher. *)
Definition isLaunch (e : Event) : bool :=
  match e with
  | Spawn _ _ _ _ | Invoke _ => true
  | _ => false
  end.

(** * Frames: what a method leaves alone, whatever its outcome *)

Class Frame (R : World -> World -> Prop) : Prop := {
  frame_refl : forall w, R w w;
  frame_trans : forall w1 w2 w3, R w1 w2 -> R w2 w3 -> R w1 w3
}.

Definition keeps {A : Type} (R : World -> World -> Prop) (m : M A) : Prop :=
  forall w, R w (snd (m w)).

(** The calls logged between [w] and [w'] all satisfy [allowed]. *)
Definition logsOnly (allowed : Event -> bool) (w w' : World) : Prop :=
  exists recent, trace w' = (recent ++ trace w)%list /\ forallb allowed recent = true.

(** The lock file is as it was. *)
Definition sameFile (w w' : World) : Prop := pidFile w' = pidFile w.

(** The lock file is as it was, or gone: nothing was written to it. *)
Definition notWritten (w w' : World) : Prop :=
  pidFile w' = pidFile w \/ pidFile w' = Absent.

(** The Launcher has not been called. *)
Definition sameSpawned (w w' : World) : Prop := spawned w' = spawned w.

(** The calls that only look at the world: reading the file, asking the
    client, sleeping. *)
Definition isObservation (e : Event) : bool :=
  match e with
  | FsReadFile | ClientGetVersion _ | ClientWait _ _ | SetTimeout _ => true
  | _ => false
  end.

Class Observing (R : World -> World -> Prop) : Prop := {
  keeps_now : forall env, keeps R (now env);
  keeps_running : forall env p, keeps R (running env p);
  keeps_readFile : keeps R readFile;
  keeps_getVersion : forall env port, keeps R (getVersion env port);
  keeps_wait : forall env port ms, keeps R (wait env port ms);
  keeps_sleep : forall ms, keeps R (sleep ms)
}.

Class Launching (R : World -> World -> Prop) : Prop := {
  keeps_invoke : forall f, keeps R (invoke f);
  keeps_spawn : forall env c args detached stdio, keeps R (spawn env c args detached stdio);
  keeps_unref : forall child, keeps R (unref child)
}.

Definition notLaunch (e : Event) : bool := negb (isLaunch e).
Definition notWrite (e : Event) : bool := negb (isWrite e).


(** * Scenarios *)

Module Scenario.

Definition server : ServerManager := mkServerManager "/var/neo-one" "1.2.3".

Definition binary : Binary := mkBinary "neo-one" ["--dir"; "/var/neo-one"].

Definition refused : JsError := mkError (Some "ECONNREFUSED") "connect ECONNREFUSED".

Definition denied : JsError := mkError (Some "EACCES") "EACCES: permission denied".

(** The error of the probe number [i]. *)
Definition unreachable (i : nat) : JsError :=
  mkError None (NilZero.string_of_uint (Nat.to_uint i)).

(** A server that answers the third version query and the second probe;
    the clock advances by one second at each reading. *)
Definition answering : Env :=
  mkEnv 100
        (fun n => Z.of_nat n)
        (fun _ _ => true)
        (fun _ n => if (n <? 2)%nat then Rejected refused else Resolved "1.2.3")
        (fun _ _ n => if (n <? 1)%nat then Rejected (unreachable n) else Resolved tt)
        (fun _ => 4322).

(** A server that never answers; the clock advances by two seconds at each
    reading. *)
Definition silent : Env :=
  mkEnv 100
        (fun n => 2 * Z.of_nat n)
        (fun _ _ => true)
        (fun _ _ => Rejected refused)
        (fun _ _ n => Rejected (unreachable n))
        (fun _ => 4322).

(** The same, with a clock that advances by ten seconds at each reading. *)
Definition down : Env :=
  mkEnv 100
        (fun n => 10 * Z.of_nat n)
        (fun _ _ => true)
        (fun _ _ => Rejected refused)
        (fun _ _ n => Rejected (unreachable n))
        (fun _ => 4322).

End Scenario.

(** * Worlds of the polling loops *)

Section Polls.

Variable port : Z.

(** One round of the version handshake: the test of the budget and the
    query. *)
Definition query (w : World) : World :=
  tickVersion (log (ClientGetVersion port) (tickClock w)).

Fixpoint queried (n : nat) (w : World) : World :=
  match n with
  | O => w
  | S n' => queried n' (query w)
  end.

End Polls.

(** One round of the liveness wait in which the child is not seen: the
    query, the test of the budget, the sleep. *)
Definition nap (w : World) : World :=
  log (SetTimeout 100) (tickClock (tickLiveness w)).

Fixpoint napped (n : nat) (w : World) : World :=
  match n with
  | O => w
  | S n' => napped n' (nap w)
  end.

(** [fs.remove] of the lock file. *)
Definition isRemove (e : Event) : bool :=
  match e with
  | FsRemove => true
  | _ => false
  end.

Definition notRemove (e : Event) : bool := negb (isRemove e).

(** [Number.MAX_SAFE_INTEGER]: up to it the integers of JavaScript are exact
    and print in plain decimal. *)
Definition maxSafeInteger : Z := 2 ^ 53 - 1.

(** Further environments. *)
Module Cases.

(** No process is ever seen and the server never answers. *)
Definition gone : Env :=
  mkEnv 100
        (fun n => Z.of_nat n)
        (fun _ _ => false)
        (fun _ _ => Rejected Scenario.refused)
        (fun _ _ n => Rejected (Scenario.unreachable n))
        (fun _ => 4322).

(** The child is seen at the third liveness query. *)
Definition slowChild : Env :=
  mkEnv 100
        (fun n => Z.of_nat n)
        (fun n _ => (2 <=? n)%nat)
        (fun _ _ => Rejected Scenario.refused)
        (fun _ _ _ => Resolved tt)
        (fun _ => 4322).

(** A server of another version answers the second query. *)
Definition outdated : Env :=
  mkEnv 100
        (fun n => Z.of_nat n)
        (fun _ _ => true)
        (fun _ n => if (n <? 1)%nat then Rejected Scenario.refused else Resolved "1.0.0")
        (fun _ _ _ => Resolved tt)
        (fun _ => 4322).

(** Only numbers are seen alive; the server answers the first probe. *)
Definition restart : Env :=
  mkEnv 100
        (fun n => Z.of_nat n)
        (fun _ p => match p with Num _ => true | _ => false end)
        (fun _ _ => Rejected Scenario.refused)
        (fun _ _ _ => Resolved tt)
        (fun _ => 4322).

(** A clock that jumps by a hundred seconds between two readings. *)
Definition stalled : Env :=
  mkEnv 100
        (fun n => 100 * Z.of_nat n)
        (fun _ _ => true)
        (fun _ _ => Rejected Scenario.refused)
        (fun _ _ n => Rejected (Scenario.unreachable n))
        (fun _ => 4322).

End Cases.

(** * [MultiProvider.js] *)

(** Modelled from the spec: a [Provider] of the backup chain, whose class is
    not part of [MultiProvider.js], by what each of its three asynchronous
    methods settles to when the chain calls it. *)
Module Provider.

Record t : Type := mk {
  canRestore : Reply bool;
  restore : Reply unit;
  backup : Reply unit
}.

End Provider.

Module MultiProvider.

(** The calls of the chain, as they are logged; a provider is named by its
    index in [_providers]. *)
Inductive Call : Type :=
| CanRestore (provider : nat)
| Restore (provider : nat)
| Backup (provider : nat)
| Remove (path : string)
| EnsureDir (path : string).

(** The fields of the class; of [_environment] only [tmpPath] is used. *)
Record t : Type := mk {
  _providers : list Provider.t;
  tmpPath : string
}.

(** The loop of [restore], from the provider number [i] on: the first
    provider that can restore is restored from, and the loop is left. *)
Fixpoint restoreFrom (i : nat) (providers : list Provider.t) (calls : list Call)
  : Outcome unit * list Call :=
  match providers with
  | [] => (Returned tt, calls)
  | provider :: rest =>
      match Provider.canRestore provider with
      | Rejected error => (Thrown error, CanRestore i :: calls)
      | Resolved true =>
          match Provider.restore provider with
          | Rejected error => (Thrown error, Restore i :: CanRestore i :: calls)
          | Resolved _ => (Returned tt, Restore i :: CanRestore i :: calls)
          end
      | Resolved false => restoreFrom (S i) rest (CanRestore i :: calls)
      end
  end.

Definition restore (self : t) (calls : list Call) : Outcome unit * list Call :=
  restoreFrom 0 (_providers self) calls.

(** The loop of [backup], from the provider number [i] on; [fs.remove] and
    [fs.ensureDir] are taken to complete. *)
Fixpoint backupFrom (tmp : string) (i : nat) (providers : list Provider.t)
         (calls : list Call) : Outcome unit * list Call :=
  match providers with
  | [] => (Returned tt, calls)
  | provider :: rest =>
      match Provider.backup provider with
      | Rejected error => (Thrown error, Backup i :: calls)
      | Resolved _ =>
          backupFrom tmp (S i) rest (EnsureDir tmp :: Remove tmp :: Backup i :: calls)
      end
  end.

Definition backup (self : t) (calls : list Call) : Outcome unit * list Call :=
  backupFrom (tmpPath self) 0 (_providers self) calls.

(** The log of asking the providers [i], ..., [i + n - 1] whether they can
    restore, most recent first. *)
Fixpoint asked (i n : nat) : list Call :=
  match n with
  | O => []
  | S n' => (asked (S i) n' ++ [CanRestore i])%list
  end.

(** The log of [n] backups that went through, from the provider [i] on, each
    followed by the clean-up of the temporary directory. *)
Fixpoint backedUp (tmp : string) (i n : nat) : list Call :=
  match n with
  | O => []
  | S n' => (backedUp tmp (S i) n' ++ [EnsureDir tmp; Remove tmp; Backup i])%list
  end.

Definition isRestore (c : Call) : bool :=
  match c with
  | Restore _ => true
  | _ => false
  end.

Definition unable : Provider.t :=
  Provider.mk (Resolved false) (Resolved tt) (Resolved tt).

Definition able : Provider.t :=
  Provider.mk (Resolved true) (Resolved tt) (Resolved tt).

Definition broken : Provider.t :=
  Provider.mk (Resolved true) (Rejected (mkError None "restore failed"))
              (Rejected (mkError None "backup failed")).

End MultiProvider.

(** * [SmartContractResource.js] *)

Module SmartContractResource.

(** A value that [JSON.parse] can give. *)
#[warnings="-register-all"]
Inductive Json : Type :=
| JNull
| JBool (b : bool)
| JNumber (z : Z)
| JString (s : string)
| JArray (items : list Json)
| JObject (fields : list (string * Json)).

(** A property of a parsed object, [undefined] ([None]) when it has none of
    that name; of two properties of one name the later one counts. *)
Fixpoint property (key : string) (fields : list (string * Json)) : option Json :=
  match fields with
  | [] => None
  | (k, v) :: rest =>
      match property key rest with
      | Some later => Some later
      | None => if String.eqb k key then Some v else None
      end
  end.

(** What the static methods throw. *)
Inductive Failure : Type :=
| ABIRequiredError
| WalletRequiredError
| ContractOrHashRequiredError
| PublishError (message : string)      (* new Error(receipt.result.message) *)
| Rejection (error : JsError).         (* an awaited promise was rejected *)

Inductive Settled (A : Type) : Type :=
| Fulfilled (a : A)
| Failed (f : Failure).
Arguments Fulfilled {A} a.
Arguments Failed {A} f.

(** [receipt.result]: [state === 'HALT'] with the published contract in
    [value], or another state with a [message]. *)
Inductive ReceiptResult : Type :=
| Halt (hash : string)
| Fault (message : string).

(** [contract: {| name, register |}]; the register is known by its name. *)
Record Contract : Type := mkContract {
  contractNameOf : string;
  register : string
}.

(** The logged calls. *)
Inductive Call : Type :=
| GetWallet (walletName : string)
| Publish (register : string) (from : string)
| Confirmed
| EnsureDir (path : string)
| WriteJSON (path : string) (value : Json)
| ReadJSON (path : string).

(** The files, by path, as [fs.readJSON] would parse them, and the log (most
    recent call first). *)
Record Disk : Type := mkDisk {
  files : string -> option Json;
  calls : list Call
}.

Definition logCall (c : Call) (d : Disk) : Disk := mkDisk (files d) (c :: calls d).

(** Modelled from the spec: the collaborators of the resource, whose code is
    not part of [SmartContractResource.js]: [compoundName.extract],
    [path.resolve], [JSON.stringify], [getWallet] (giving the wallet's
    address), [client.publish] followed by [result.confirmed()], the error
    of [fs.readJSON] on a path, what [fs.ensureDir] and [fs.writeJSON] settle
    to on a path, and what a rejected write leaves in the file. *)
Record Chain : Type := mkChain {
  extract : string -> string * string;
  resolve : string -> string -> string;
  stringify : Json -> string;
  getWallet : string -> Reply string;
  publish : string -> string -> Reply (Reply ReceiptResult);
  unreadable : string -> JsError;
  ensuresDir : string -> Reply unit;
  writes : string -> Reply unit;
  leftBehind : string -> option Json
}.

(** The private fields; [_hash] and [_contractName] may be [undefined], and
    [_abi] is whatever was passed or parsed. *)
Record t : Type := mk {
  _name : string;
  _baseName : string;
  _networkName : string;
  _dataPath : string;
  _configPath : string;
  _abiPath : string;
  _hash : option Json;
  _contractName : option Json;
  _abi : Json
}.

(** The [TypeError] of destructuring [null]. *)
Definition nullConfig : JsError :=
  mkError None "Cannot destructure property 'hash' of null".

Definition CONFIG_PATH : string := "config.json".
Definition ABI_PATH : string := "abi.json".

(** The options of [createNew] that it looks at. *)
Record NewOptions : Type := mkNew {
  newName : string;
  newAbi : option Json;
  newContract : option Contract;
  newHash : option string;
  newWallet : option string;
  newDataPath : string
}.

Section Methods.

Variable chain : Chain.

Definition _getConfigPath (dataPath : string) : string :=
  resolve chain dataPath CONFIG_PATH.

Definition _getABIPath (dataPath : string) : string :=
  resolve chain dataPath ABI_PATH.

(** The branch of [createNew] that settles the hash and the contract name;
    nothing is written yet. *)
Definition settleHash (options : NewOptions) (d : Disk)
  : Settled (string * option string) * Disk :=
  match newContract options with
  | Some contract =>
      match newWallet options with
      | None => (Failed WalletRequiredError, d)
      | Some walletName =>
          let d1 := logCall (GetWallet walletName) d in
          match getWallet chain walletName with
          | Rejected error => (Failed (Rejection error), d1)
          | Resolved address =>
              let d2 := logCall (Publish (register contract) address) d1 in
              match publish chain (register contract) address with
              | Rejected error => (Failed (Rejection error), d2)
              | Resolved result =>
                  let d3 := logCall Confirmed d2 in
                  match result with
                  | Rejected error => (Failed (Rejection error), d3)
                  | Resolved (Halt hash) =>
                      (Fulfilled (hash, Some (contractNameOf contract)), d3)
                  | Resolved (Fault message) => (Failed (PublishError message), d3)
                  end
              end
          end
      end
  | None =>
      match newHash options with
      | None => (Failed ContractOrHashRequiredError, d)
      | Some hashIn => (Fulfilled (hashIn, None), d)
      end
  end.

(** [{ hash, contractName }] as [fs.writeJSON] stores it: an undefined
    [contractName] is left out. *)
Definition configOf (hash : string) (contractName : option string) : Json :=
  JObject (("hash", JString hash)
             :: match contractName with
                | Some n => [("contractName", JString n)]
                | None => []
                end).

(** [fs.writeJSON(path, value)]: when the write goes through, the file
    parses to [value]; when it is rejected, the file holds what the failed
    write left behind. *)
Definition writeJSON (path : string) (value : Json) (d : Disk) : Disk :=
  mkDisk (fun p =>
            if String.eqb p path
            then match writes chain path with
                 | Resolved _ => Some value
                 | Rejected _ => leftBehind chain path
                 end
            else files d p)
         (WriteJSON path value :: calls d).

(** [createNew]; [Promise.all] starts both writes, and of two rejections the
    one of the config file is taken. *)
Definition createNew (options : NewOptions) (d : Disk) : Settled t * Disk :=
  let '(baseName, networkName) := extract chain (newName options) in
  match newAbi options with
  | None => (Failed ABIRequiredError, d)
  | Some abi =>
      match settleHash options d with
      | (Failed f, d1) => (Failed f, d1)
      | (Fulfilled (hash, contractName), d1) =>
          let dataPath := newDataPath options in
          let d2 := logCall (EnsureDir dataPath) d1 in
          match ensuresDir chain dataPath with
          | Rejected error => (Failed (Rejection error), d2)
          | Resolved _ =>
              let configPath := _getConfigPath dataPath in
              let abiPath := _getABIPath dataPath in
              let d3 := writeJSON abiPath (JString (stringify chain abi))
                                  (writeJSON configPath (configOf hash contractName) d2) in
              match writes chain configPath, writes chain abiPath with
              | Resolved _, Resolved _ =>
                  (Fulfilled (mk (newName options) baseName networkName dataPath
                                 configPath abiPath (Some (JString hash))
                                 (option_map JString contractName) abi),
                   d3)
              | Rejected error, _ => (Failed (Rejection error), d3)
              | Resolved _, Rejected error => (Failed (Rejection error), d3)
              end
          end
      end
  end.

(** [fs.readJSON(path)] *)
Definition readJSON (path : string) (d : Disk) : Settled Json * Disk :=
  match files d path with
  | Some value => (Fulfilled value, logCall (ReadJSON path) d)
  | None => (Failed (Rejection (unreadable chain path)), logCall (ReadJSON path) d)
  end.

(** [const { hash, contractName } = config]: [null] cannot be destructured,
    and a value that is not an object has neither property. *)
Definition destructure (config : Json) : Settled (option Json * option Json) :=
  match config with
  | JNull => Failed (Rejection nullConfig)
  | JObject fields => Fulfilled (property "hash" fields, property "contractName" fields)
  | _ => Fulfilled (None, None)
  end.

(** [createExisting]; the two reads are taken in the order of the array. *)
Definition createExisting (name dataPath : string) (d : Disk) : Settled t * Disk :=
  let '(baseName, networkName) := extract chain name in
  let configPath := _getConfigPath dataPath in
  let abiPath := _getABIPath dataPath in
  match readJSON configPath d with
  | (Failed f, d1) => (Failed f, snd (readJSON abiPath d1))
  | (Fulfilled config, d1) =>
      match readJSON abiPath d1 with
      | (Failed f, d2) => (Failed f, d2)
      | (Fulfilled abi, d2) =>
          match destructure config with
          | Fulfilled (hash, contractName) =>
              (Fulfilled (mk name baseName networkName dataPath configPath abiPath
                             hash contractName abi),
               d2)
          | Failed f => (Failed f, d2)
          end
      end
  end.

End Methods.

(** The calls that change the disk. *)
Definition isDiskWrite (c : Call) : bool :=
  match c with
  | EnsureDir _ | WriteJSON _ _ => true
  | _ => false
  end.

(** A chain with one wallet, on which every contract is published. *)
Definition local : Chain :=
  mkChain (fun name => (name, "priv"))
          (fun dataPath file => dataPath ++ "/" ++ file)
          (fun _ => "{}")
          (fun walletName =>
             if String.eqb walletName "main" then Resolved "AVf4UGKevVrMR1j3UkPsuoYKSC4ocoAkKx"
             else Rejected (mkError None "no such wallet"))
          (fun _ _ => Resolved (Resolved (Halt "0xabc")))
          (fun _ => enoent)
          (fun _ => Resolved tt)
          (fun _ => Resolved tt)
          (fun _ => None).

(** The same chain, on which publications end in a fault. *)
Definition faulting : Chain :=
  mkChain (extract local) (resolve local) (stringify local) (getWallet local)
          (fun _ _ => Resolved (Resolved (Fault "out of gas")))
          (unreadable local) (ensuresDir local) (writes local) (leftBehind local).

Definition empty : Disk := mkDisk (fun _ => None) [].

End SmartContractResource.

(** * The wiring of interactive commands ([src/unnamed/part_000]) *)

Module Commands.

(** The calls of a wrapped action, as they are logged. *)
Inductive Call : Type :=
| PreHooks (name : string)              (* cli.executeCommandPreHooks(name, args) *)
| Fn                                    (* fn(args) *)
| PostHooks (name : string)             (* cli.executeCommandPostHooks(name, args) *)
| Cancel                                (* command._cancel() *)
| Fail (text : string)                  (* ora(error.message).fail() *)
| LogError (name : string) (error : JsError).

(** An awaited call: what it settles to, whether the user cancelled the
    command while it was pending, and, for a call that is rejected, whether
    the value of the rejection is [null] or [undefined] (the error object of
    [settles] then stands for nothing). *)
Record Await : Type := mkAwait {
  settles : Reply unit;
  interrupted : bool;
  nullish : bool
}.

(** What the [catch] clause receives. *)
Inductive Caught : Type :=
| Nullish
| Object (error : JsError).

(** How the [try] block ends. *)
Inductive Attempt : Type :=
| Completed
| Raised (value : Caught).

(** The [TypeError] of reading [error.message] from [null] or [undefined]. *)
Definition noMessage : JsError :=
  mkError None "Cannot read property 'message' of null".

(** [command._name], and whether [command._cancel] is there, in which case
    the wiring registers a cancel handler. *)
Record Command : Type := mkCommand {
  _name : string;
  hasCancel : bool
}.

(** The variable [cancelled] of the command's closure, and the log (most
    recent call first). *)
Record State : Type := mkState {
  cancelled : bool;
  calls : list Call
}.

(** The handler given to [command.cancel]. *)
Definition onCancel (s : State) : State := mkState true (Cancel :: calls s).

(** One awaited call of the action; the handler runs while the call is
    pending, if the user cancels and a handler was registered. *)
Definition await (command : Command) (c : Call) (a : Await) (s : State)
  : Attempt * State :=
  let called := mkState (cancelled s) (c :: calls s) in
  let s' := if interrupted a && hasCancel command then onCancel called else called in
  match settles a with
  | Resolved _ => (Completed, s')
  | Rejected error => (Raised (if nullish a then Nullish else Object error), s')
  end.

(** The body of the [try] block. *)
Definition attempt (command : Command) (pre fn post : Await) (s : State)
  : Attempt * State :=
  let reset := mkState false (calls s) in
  match await command (PreHooks (_name command)) pre reset with
  | (Completed, s1) =>
      match await command Fn fn s1 with
      | (Completed, s2) =>
          if negb (cancelled s2)
          then await command (PostHooks (_name command)) post s2
          else (Completed, s2)
      | failed => failed
      end
  | failed => failed
  end.

(** The function given to [command.action].  The [catch] clause reads
    [error.message] first, which throws for [null] and [undefined]; [ora]
    and [logError] are taken to complete. *)
Definition action (command : Command) (pre fn post : Await) (s : State)
  : Outcome unit * State :=
  match attempt command pre fn post s with
  | (Completed, s') => (Returned tt, s')
  | (Raised Nullish, s') => (Thrown noMessage, s')
  | (Raised (Object error), s') =>
      (Returned tt,
       mkState (cancelled s')
               (LogError (_name command) error :: Fail (message error) :: calls s'))
  end.

Definition isPostHooks (c : Call) : bool :=
  match c with
  | PostHooks _ => true
  | _ => false
  end.

Definition isReport (c : Call) : bool :=
  match c with
  | Fail _ | LogError _ _ => true
  | _ => false
  end.

Definition done : Await := mkAwait (Resolved tt) false false.

Definition doneCancelled : Await := mkAwait (Resolved tt) true false.

Definition failing : Await := mkAwait (Rejected (mkError None "boom")) false false.

Definition failingWithNull : Await :=
  mkAwait (Rejected (mkError None EmptyString)) false true.

End Commands.

(** * Reading the lock file *)

Module ParseIntFacts.
Import ParseInt.

Lemma digit_cases (d : Z) :
  isDigit d ->
  d = 0 \/ d = 1 \/ d = 2 \/ d = 3 \/ d = 4 \/ d = 5 \/ d = 6 \/ d = 7 \/ d = 8 \/ d = 9.
Proof. unfold isDigit. lia. Qed.

Ltac each_digit d H :=
  destruct (digit_cases d H) as [-> | [-> | [-> | [-> | [-> | [-> | [-> | [-> | [-> | ->]]]]]]]]].

Lemma digitValue_digitChar (d : Z) : isDigit d -> digitValue (digitChar d) = Some d.
Proof. intro H. each_digit d H; reflexivity. Qed.

Lemma fold_shiftIn_decimalValue (ds : list Z) :
  fold_left shiftIn ds 0 = decimalValue ds.
Proof.
  unfold decimalValue.
  induction ds as [| d ds IH] using rev_ind.
  - reflexivity.
  - rewrite fold_left_app, rev_app_distr.
    cbn [fold_left rev app littleEndian]. rewrite IH.
    unfold shiftIn. lia.
Qed.

Lemma scanDigits_stop (rest : string) (acc : option Z) :
  stopsNumeral rest -> scanDigits rest acc = acc.
Proof.
  destruct rest as [| c r]; simpl; [reflexivity |].
  intros ->. reflexivity.
Qed.

Lemma scanDigits_numeral (ds : list Z) (rest : string) :
  Forall isDigit ds -> stopsNumeral rest ->
  forall acc : Z,
    scanDigits (numeral ds ++ rest) (Some acc) = Some (fold_left shiftIn ds acc).
Proof.
  intros Hds Hrest.
  induction Hds as [| d ds Hd _ IH]; intro acc; simpl.
  - apply scanDigits_stop, Hrest.
  - rewrite (digitValue_digitChar d Hd). apply IH.
Qed.

Lemma trimStart_digit (d : Z) (r : string) :
  isDigit d -> trimStart (String (digitChar d) r) = String (digitChar d) r.
Proof.
  intro H.
  each_digit d H; simpl;
    (destruct r as [| c2 [| c3 r3]]; reflexivity).
Qed.

Lemma splitSign_digit (d : Z) (r : string) :
  isDigit d -> splitSign (String (digitChar d) r) = (1, String (digitChar d) r).
Proof. intro H. each_digit d H; reflexivity. Qed.

(** A numeral followed by anything that is not a digit parses to the double
    nearest to the value of the numeral. *)
Lemma parseInt_numeral (ds : list Z) (rest : string) :
  ds <> [] -> Forall isDigit ds -> stopsNumeral rest ->
  parseInt (numeral ds ++ rest) = toNumber (decimalValue ds).
Proof.
  intros Hne Hds Hrest.
  destruct ds as [| d ds]; [congruence |].
  inversion Hds as [| d' ds' Hd Hds' ]; subst.
  unfold parseInt. simpl numeral. simpl append.
  rewrite (trimStart_digit d _ Hd), (splitSign_digit d _ Hd).
  cbn [scanDigits]. rewrite (digitValue_digitChar d Hd).
  rewrite (scanDigits_numeral ds rest Hds' Hrest).
  rewrite <- fold_shiftIn_decimalValue. cbn [fold_left].
  rewrite Z.mul_1_l. reflexivity.
Qed.

Lemma littleEndian_nonneg (ds : list Z) :
  Forall isDigit ds -> 0 <= littleEndian ds.
Proof.
  induction 1 as [| d ds Hd _ IH]; cbn [littleEndian]; [lia |].
  unfold isDigit in Hd. lia.
Qed.

Lemma decimalValue_nonneg (ds : list Z) :
  Forall isDigit ds -> 0 <= decimalValue ds.
Proof.
  intro Hds. unfold decimalValue.
  apply littleEndian_nonneg, Forall_rev, Hds.
Qed.

(** Below 2^53 an integer is its own double. *)
Lemma toNumber_safe (z : Z) :
  - maxSafeInteger <= z <= maxSafeInteger -> toNumber z = Num z.
Proof.
  unfold maxSafeInteger, toNumber. intro Hsafe.
  replace (Z.abs z <? 9007199254740992) with true; [reflexivity |].
  symmetry. apply Z.ltb_lt. change (2 ^ 53) with 9007199254740992 in Hsafe. lia.
Qed.

End ParseIntFacts.

(** What [getServerPID] does, by the state of the lock file. *)
Section GetServerPID.

Variable w : World.

Lemma getServerPID_present (contents : string) :
  pidFile w = Present contents ->
  getServerPID w = (Returned (Some (ParseInt.parseInt contents)), log FsReadFile w).
Proof.
  intro Hfile.
  unfold getServerPID, bind, tryCatch, readFile, ret.
  rewrite Hfile. reflexivity.
Qed.

Lemma getServerPID_absent :
  pidFile w = Absent ->
  getServerPID w = (Returned None, log FsReadFile w).
Proof.
  intro Hfile.
  unfold getServerPID, bind, tryCatch, readFile, ret.
  rewrite Hfile. reflexivity.
Qed.

Lemma getServerPID_unreadable (error : JsError) :
  pidFile w = Unreadable error ->
  getServerPID w
  = (if isENOENT error then Returned None else Thrown error, log FsReadFile w).
Proof.
  intro Hfile.
  unfold getServerPID, bind, tryCatch, readFile, ret, throw.
  rewrite Hfile. destruct (isENOENT error); reflexivity.
Qed.

(** Whatever the file holds, reading the owner leaves it as it is. *)
Lemma getServerPID_keeps_file :
  pidFile (snd (getServerPID w)) = pidFile w.
Proof.
  destruct (pidFile w) as [| contents | error] eqn:Hfile.
  - rewrite getServerPID_absent by assumption. exact Hfile.
  - rewrite (getServerPID_present contents) by assumption. exact Hfile.
  - rewrite (getServerPID_unreadable error) by assumption. exact Hfile.
Qed.

End GetServerPID.

(** * The rules of frames *)

Section FrameRules.

Context (R : World -> World -> Prop) `{Frame R}.

Lemma keeps_ret {A : Type} (a : A) : keeps R (ret a).
Proof. intro w. apply frame_refl. Qed.

Lemma keeps_throw {A : Type} (error : JsError) : keeps R (@throw A error).
Proof. intro w. apply frame_refl. Qed.

Lemma keeps_outOfFuel {A : Type} : keeps R (@outOfFuel A).
Proof. intro w. apply frame_refl. Qed.

Lemma keeps_bind {A B : Type} (m : M A) (k : A -> M B) :
  keeps R m -> (forall a, keeps R (k a)) -> keeps R (bind m k).
Proof.
  intros Hm Hk w. unfold bind.
  specialize (Hm w).
  destruct (m w) as [[a | error |] w']; simpl in *; try exact Hm.
  eapply frame_trans; [exact Hm | apply Hk].
Qed.

Lemma keeps_tryCatch {A : Type} (m : M A) (handler : JsError -> M A) :
  keeps R m -> (forall error, keeps R (handler error)) -> keeps R (tryCatch m handler).
Proof.
  intros Hm Hh w. unfold tryCatch.
  specialize (Hm w).
  destruct (m w) as [[a | error |] w']; simpl in *; try exact Hm.
  eapply frame_trans; [exact Hm | apply Hh].
Qed.

End FrameRules.

#[global] Instance logsOnly_frame (allowed : Event -> bool) : Frame (logsOnly allowed).
Proof.
  split.
  - intro w. exists []. split; reflexivity.
  - intros w1 w2 w3 [r1 [E1 A1]] [r2 [E2 A2]].
    exists (r2 ++ r1)%list. split.
    + rewrite E2, E1. apply app_assoc.
    + rewrite forallb_app, A1, A2. reflexivity.
Qed.

#[global] Instance sameFile_frame : Frame sameFile.
Proof.
  split; unfold sameFile.
  - reflexivity.
  - intros w1 w2 w3 E1 E2. congruence.
Qed.

#[global] Instance sameSpawned_frame : Frame sameSpawned.
Proof.
  split; unfold sameSpawned.
  - reflexivity.
  - intros w1 w2 w3 E1 E2. congruence.
Qed.

#[global] Instance notWritten_frame : Frame notWritten.
Proof.
  split; unfold notWritten.
  - intro w. left. reflexivity.
  - intros w1 w2 w3 [E1 | E1] [E2 | E2]; rewrite E2; auto.
Qed.

Lemma logsOnly_filter (allowed select : Event -> bool) (w w' : World) :
  (forall e, allowed e = true -> select e = false) ->
  logsOnly allowed w w' ->
  filter select (trace w') = filter select (trace w).
Proof.
  intros Hdisjoint [recent [-> Hall]].
  rewrite filter_app.
  replace (filter select recent) with (@nil Event); [reflexivity |].
  induction recent as [| e recent IH]; [reflexivity |].
  simpl in Hall. apply andb_prop in Hall as [He Hall].
  simpl. rewrite (Hdisjoint e He). apply IH, Hall.
Qed.

(** ** The primitives, by what they touch *)

Ltac settle_all :=
  repeat match goal with
         | |- context [match ?x with _ => _ end] => destruct x eqn:?
         end.

Ltac by_file :=
  intros; intro w;
  cbv [now running readFile getVersion wait sleep invoke spawn unref killProcess
       remove settle];
  settle_all; simpl; (congruence || (left; congruence) || (right; congruence)).

#[global] Instance sameFile_observing : Observing sameFile.
Proof. split; unfold sameFile; by_file. Qed.

#[global] Instance sameFile_launching : Launching sameFile.
Proof. split; unfold sameFile; by_file. Qed.

#[global] Instance notWritten_observing : Observing notWritten.
Proof. split; unfold notWritten; by_file. Qed.

#[global] Instance notWritten_launching : Launching notWritten.
Proof. split; unfold notWritten; by_file. Qed.

#[global] Instance sameSpawned_observing : Observing sameSpawned.
Proof. split; unfold sameSpawned; by_file. Qed.

Lemma sameSpawned_killProcess (p : JsNum) : keeps sameSpawned (killProcess p).
Proof. unfold sameSpawned; by_file. Qed.

Lemma sameSpawned_remove : keeps sameSpawned remove.
Proof. unfold sameSpawned; by_file. Qed.

Lemma notWritten_killProcess (p : JsNum) : keeps notWritten (killProcess p).
Proof. unfold notWritten; by_file. Qed.

Lemma notWritten_remove : keeps notWritten remove.
Proof. unfold notWritten; by_file. Qed.

Lemma sameFile_killProcess (p : JsNum) : keeps sameFile (killProcess p).
Proof. unfold sameFile; by_file. Qed.

Section LogsOnly.

Variable allowed : Event -> bool.

Lemma logsOnly_silent (w w' : World) :
  trace w' = trace w -> logsOnly allowed w w'.
Proof. intro E. exists []. split; [exact E | reflexivity]. Qed.

Lemma logsOnly_one (e : Event) (w w' : World) :
  allowed e = true -> trace w' = e :: trace w -> logsOnly allowed w w'.
Proof.
  intros He E. exists [e]. split; [exact E |].
  simpl. rewrite He. reflexivity.
Qed.

Ltac by_log :=
  intros; intro w;
  cbv [now running readFile getVersion wait sleep invoke spawn unref killProcess
       remove settle];
  settle_all; simpl;
  (apply logsOnly_silent; reflexivity)
  || (eapply logsOnly_one; [| reflexivity]; auto).

Lemma logsOnly_observing :
  (forall e, isObservation e = true -> allowed e = true) ->
  Observing (logsOnly allowed).
Proof. intro Hobs. split; by_log. Qed.

Lemma logsOnly_launching :
  (forall e, isLaunch e = true \/ (exists child, e = Unref child) -> allowed e = true) ->
  Launching (logsOnly allowed).
Proof.
  intro Hl. split; by_log; apply Hl; (left; reflexivity) || (right; eexists; reflexivity).
Qed.

Lemma logsOnly_killProcess (p : JsNum) :
  allowed (KillProcess p) = true -> keeps (logsOnly allowed) (killProcess p).
Proof. intro Hk. revert p Hk. by_log. Qed.

Lemma logsOnly_remove :
  allowed FsRemove = true -> keeps (logsOnly allowed) remove.
Proof. intro Hr. revert Hr. by_log. Qed.

End LogsOnly.

(** ** The methods, by what their primitives touch *)

Lemma getServerPID_world (w : World) : snd (getServerPID w) = log FsReadFile w.
Proof.
  destruct (pidFile w) as [| contents | error] eqn:Hfile.
  - rewrite getServerPID_absent by assumption. reflexivity.
  - rewrite (getServerPID_present w contents) by assumption. reflexivity.
  - rewrite (getServerPID_unreadable w error) by assumption. reflexivity.
Qed.

Ltac frame_step :=
  first
    [ solve [ (apply keeps_ret || apply keeps_throw || apply keeps_outOfFuel
               || apply keeps_now || apply keeps_running || apply keeps_readFile
               || apply keeps_getVersion || apply keeps_wait || apply keeps_sleep
               || apply keeps_invoke || apply keeps_spawn || apply keeps_unref);
              typeclasses eauto ]
    | assumption
    | match goal with
      | H : forall _, keeps _ _ |- _ => apply H
      | H : forall _ _, keeps _ _ |- _ => apply H
      | H : forall _ _ _, keeps _ _ |- _ => apply H
      end
    | apply keeps_bind; [typeclasses eauto | | intro]
    | apply keeps_tryCatch; [typeclasses eauto | | intro]
    | match goal with
      | |- keeps _ (if ?b then _ else _) => destruct b
      | |- keeps _ (match ?x with _ => _ end) => destruct x
      end ].

Ltac frame_with known :=
  repeat first [ solve [known; try typeclasses eauto] | frame_step ].

Ltac frame := repeat frame_step.

Section MethodFrames.

Context (R : World -> World -> Prop) `{Frame R} `{Observing R}.
Variable env : Env.

Lemma isSameVersionLoop_keeps (fuel : nat) (port : Z) (expected : string)
      (startTime : Z) :
  keeps R (isSameVersionLoop env fuel port expected startTime).
Proof. induction fuel as [| fuel IH]; simpl; frame. Qed.

Lemma isSameVersion_keeps (fuel : nat) (port : Z) (expected : string) :
  keeps R (isSameVersion env fuel port expected).
Proof. unfold isSameVersion. frame_with ltac:(apply isSameVersionLoop_keeps). Qed.

Lemma waitRunningLoop_keeps (fuel : nat) (child : JsNum) (startTime : Z) :
  keeps R (waitRunningLoop env fuel child startTime).
Proof. induction fuel as [| fuel IH]; simpl; frame. Qed.

Lemma waitRunning_keeps (fuel : nat) (child : JsNum) :
  keeps R (waitRunning env fuel child).
Proof. unfold waitRunning. frame_with ltac:(apply waitRunningLoop_keeps). Qed.

Lemma waitReachableLoop_keeps (fuel : nat) (port : Z) (startTime : Z)
      (lastError : option JsError) :
  keeps R (waitReachableLoop env fuel port startTime lastError).
Proof.
  revert lastError. induction fuel as [| fuel IH]; intro lastError; simpl; frame.
Qed.

Lemma waitReachable_keeps (fuel : nat) (port : Z) :
  keeps R (waitReachable env fuel port).
Proof. unfold waitReachable. frame_with ltac:(apply waitReachableLoop_keeps). Qed.

Lemma getServerPID_keeps : keeps R getServerPID.
Proof.
  intro w. rewrite getServerPID_world.
  pose proof (keeps_readFile w) as Hread.
  unfold readFile in Hread.
  destruct (pidFile w); exact Hread.
Qed.

Hypothesis keeps_killProcess : forall p, keeps R (killProcess p).

Lemma kill_keeps (optionsIn : option JsNum) : keeps R (kill optionsIn).
Proof. unfold kill. frame_with ltac:(apply getServerPID_keeps). Qed.

Hypothesis keeps_remove : keeps R remove.

Variable self : ServerManager.

Lemma checkAlive_keeps (fuel : nat) (port : Z) :
  keeps R (checkAlive env self fuel port).
Proof.
  unfold checkAlive.
  frame_with ltac:(apply getServerPID_keeps || apply isSameVersion_keeps
                   || apply kill_keeps).
Qed.

Context `{Launching R}.

Lemma start_keeps (fuel : nat) (port : Z) (binary : Binary)
      (onStart : option Callback) :
  keeps R (start env self fuel port binary onStart).
Proof.
  unfold start.
  frame_with ltac:(apply checkAlive_keeps || apply waitRunning_keeps
                   || apply waitReachable_keeps).
Qed.

End MethodFrames.

(** * Running the monad *)

Lemma bind_returned {A B : Type} (m : M A) (k : A -> M B) (w w' : World) (a : A) :
  m w = (Returned a, w') -> bind m k w = k a w'.
Proof. intro E. unfold bind. rewrite E. reflexivity. Qed.

Lemma bind_thrown {A B : Type} (m : M A) (k : A -> M B) (w w' : World)
      (error : JsError) :
  m w = (Thrown error, w') -> bind m k w = (Thrown error, w').
Proof. intro E. unfold bind. rewrite E. reflexivity. Qed.

Lemma run_pair {A : Type} (m : M A) (w : World) (o : Outcome A) :
  fst (m w) = o -> m w = (o, snd (m w)).
Proof. intros <-. apply surjective_pairing. Qed.

(** * The version handshake *)

Section Handshake.

Variable env : Env.
Variable port : Z.
Variable expected : string.

(** The first [k] queries fail, the next one is answered with [version],
    and the budget holds at each of the [k + 1] tests of the condition:
    the loop returns whether [version] is the expected one. *)
Lemma isSameVersionLoop_answered (version : string) (startTime : Z) (k : nat) :
  forall (fuel : nat) (w : World),
    (k < fuel)%nat ->
    (forall i, (i <= k)%nat -> nowSeconds env (clockReads w + i) - startTime <= 5) ->
    (forall i, (i < k)%nat ->
               exists error,
                 clientGetVersion env port (versionQueries w + i) = Rejected error) ->
    clientGetVersion env port (versionQueries w + k) = Resolved version ->
    fst (isSameVersionLoop env fuel port expected startTime w)
    = Returned (String.eqb version expected).
Proof.
  induction k as [| k IH]; intros fuel w Hfuel Hbudget Hfail Hanswer;
    (destruct fuel as [| fuel]; [lia |]);
    cbn [isSameVersionLoop]; unfold bind at 1; unfold now at 1;
    cbn [fst snd];
    pose proof (Hbudget 0%nat ltac:(lia)) as Hfirst;
    rewrite Nat.add_0_r in Hfirst;
    apply Z.leb_le in Hfirst; rewrite Hfirst;
    unfold bind at 1, tryCatch at 1, bind at 1, getVersion at 1;
    cbn [versionQueries tickClock log tickVersion].
  - rewrite Nat.add_0_r in Hanswer. rewrite Hanswer. reflexivity.
  - destruct (Hfail 0%nat ltac:(lia)) as [error Herror].
    rewrite Nat.add_0_r in Herror. rewrite Herror.
    cbn [settle ret].
    apply IH.
    + lia.
    + intros i Hi. cbn [clockReads tickVersion log tickClock].
      replace (S (clockReads w) + i)%nat with (clockReads w + S i)%nat by lia.
      apply Hbudget. lia.
    + intros i Hi. cbn [versionQueries tickVersion log tickClock].
      replace (S (versionQueries w) + i)%nat with (versionQueries w + S i)%nat by lia.
      apply Hfail. lia.
    + cbn [versionQueries tickVersion log tickClock].
      replace (S (versionQueries w) + k)%nat with (versionQueries w + S k)%nat by lia.
      exact Hanswer.
Qed.

(** No query is ever answered with the expected version, and by the test
    number [n] either the budget is exhausted or a query has been answered:
    the loop returns [false]. *)
Lemma isSameVersionLoop_unconfirmed (startTime : Z) (n : nat) :
  forall (fuel : nat) (w : World),
    (n < fuel)%nat ->
    (forall i, clientGetVersion env port (versionQueries w + i) <> Resolved expected) ->
    (5 < nowSeconds env (clockReads w + n) - startTime
     \/ exists version,
         clientGetVersion env port (versionQueries w + n) = Resolved version) ->
    fst (isSameVersionLoop env fuel port expected startTime w) = Returned false.
Proof.
  induction n as [| n IH]; intros fuel w Hfuel Hnever Hexit;
    (destruct fuel as [| fuel]; [lia |]);
    cbn [isSameVersionLoop]; unfold bind at 1; unfold now at 1;
    cbn [fst snd];
    (destruct (nowSeconds env (clockReads w) - startTime <=? 5) eqn:Hcheck;
     [| reflexivity]);
    unfold bind at 1, tryCatch at 1, bind at 1, getVersion at 1;
    cbn [versionQueries tickClock log tickVersion];
    pose proof (Hnever 0%nat) as Hzero; rewrite Nat.add_0_r in Hzero;
    (destruct (clientGetVersion env port (versionQueries w)) as [version | error]
       eqn:Hreply;
     [ cbn [settle ret fst];
       destruct (String.eqb version expected) eqn:Hsame;
       [ apply String.eqb_eq in Hsame; subst version; congruence | reflexivity ]
     | cbn [settle ret] ]).
  - exfalso. rewrite !Nat.add_0_r in Hexit.
    destruct Hexit as [Hlate | [version Hversion]].
    + apply Z.leb_le in Hcheck. lia.
    + congruence.
  - apply IH.
    + lia.
    + intro i. cbn [versionQueries tickVersion log tickClock].
      replace (S (versionQueries w) + i)%nat with (versionQueries w + S i)%nat by lia.
      apply Hnever.
    + cbn [versionQueries clockReads tickVersion log tickClock].
      replace (S (clockReads w) + n)%nat with (clockReads w + S n)%nat by lia.
      replace (S (versionQueries w) + n)%nat with (versionQueries w + S n)%nat by lia.
      exact Hexit.
Qed.

End Handshake.

(** * The waits of [start] *)

Section Waits.

Variable env : Env.

(** The process is seen at query [j], or the budget is over at test [j]:
    the liveness wait returns, whichever comes first. *)
Lemma waitRunningLoop_returns (child : JsNum) (startTime : Z) (j : nat) :
  forall (fuel : nat) (w : World),
    (j < fuel)%nat ->
    (isRunning env (livenessQueries w + j) child = true
     \/ 5 < nowSeconds env (clockReads w + j) - startTime) ->
    fst (waitRunningLoop env fuel child startTime w) = Returned tt.
Proof.
  induction j as [| j IH]; intros fuel w Hfuel Hexit;
    (destruct fuel as [| fuel]; [lia |]);
    cbn [waitRunningLoop]; unfold bind at 1; unfold running at 1;
    (destruct (isRunning env (livenessQueries w) child) eqn:Halive;
     [reflexivity |]);
    cbn [negb]; unfold bind at 1; unfold now at 1;
    cbn [clockReads tickLiveness];
    (destruct (nowSeconds env (clockReads w) - startTime <=? 5) eqn:Hcheck;
     [| reflexivity]);
    unfold bind at 1; unfold sleep at 1.
  - exfalso. rewrite !Nat.add_0_r in Hexit.
    apply Z.leb_le in Hcheck.
    destruct Hexit as [Hseen | Hlate]; [congruence | lia].
  - apply IH; [lia |].
    cbn [livenessQueries clockReads log tickClock tickLiveness].
    replace (S (livenessQueries w) + j)%nat with (livenessQueries w + S j)%nat by lia.
    replace (S (clockReads w) + j)%nat with (clockReads w + S j)%nat by lia.
    exact Hexit.
Qed.

Variable port : Z.

Lemma backoffs_snoc (n : nat) :
  (backoffs port n ++ [SetTimeout 100; ClientWait port 1000])%list = backoffs port (S n).
Proof.
  induction n as [| n IH]; [reflexivity |].
  cbn [backoffs app]. rewrite IH. reflexivity.
Qed.

Lemma retried_trace (n : nat) :
  forall w, trace (retried port n w) = (backoffs port n ++ trace w)%list.
Proof.
  induction n as [| n IH]; intro w; [reflexivity |].
  cbn [retried]. rewrite IH.
  rewrite <- backoffs_snoc, <- app_assoc. reflexivity.
Qed.

Lemma retried_counters (n : nat) :
  forall w,
    clockReads (retried port n w) = (clockReads w + n)%nat
    /\ probes (retried port n w) = (probes w + n)%nat
    /\ pidFile (retried port n w) = pidFile w.
Proof.
  induction n as [| n IH]; intro w; cbn [retried].
  - repeat split; lia.
  - destruct (IH (retry port w)) as [Hc [Hp Hf]].
    rewrite Hc, Hp, Hf. cbn. repeat split; lia.
Qed.

(** [n] probes fail one after the other within the budget.  Then the loop
    is where it would be had it been entered after them, with the last of
    their errors remembered. *)
Lemma waitReachableLoop_retries (startTime : Z) (n : nat) :
  forall (fuel : nat) (w : World) (lastError : option JsError)
         (errors : nat -> JsError),
    (forall i, (i < n)%nat ->
               nowSeconds env (clockReads w + i) - startTime <= 30
               /\ clientWait env port 1000 (probes w + i) = Rejected (errors i)) ->
    waitReachableLoop env (n + fuel) port startTime lastError w
    = waitReachableLoop env fuel port startTime
                        (lastErrorAfter errors lastError n) (retried port n w).
Proof.
  induction n as [| n IH]; intros fuel w lastError errors Hfail; [reflexivity |].
  destruct (Hfail 0%nat ltac:(lia)) as [Hcheck Hprobe].
  rewrite Nat.add_0_r in Hcheck, Hprobe.
  apply Z.leb_le in Hcheck.
  cbn [Nat.add waitReachableLoop]. unfold bind at 1; unfold now at 1.
  rewrite Hcheck.
  unfold bind at 1, tryCatch at 1, bind at 1, wait at 1.
  cbn [probes tickClock]. rewrite Hprobe.
  cbn [settle]. unfold bind at 1, sleep at 1.
  cbn [ret].
  rewrite (IH fuel _ (Some (errors 0%nat)) (fun i => errors (S i))).
  - cbn [retried]. unfold retry. f_equal.
    destruct n; reflexivity.
  - intros i Hi. cbn [clockReads probes log tickProbe tickClock].
    replace (S (clockReads w) + i)%nat with (clockReads w + S i)%nat by lia.
    replace (S (probes w) + i)%nat with (probes w + S i)%nat by lia.
    apply (Hfail (S i)). lia.
Qed.

(** After the retries, the budget is over: the last error is thrown (or,
    with no error seen, the wait returns). *)
Lemma waitReachableLoop_exhausted (startTime : Z) (fuel : nat) (w : World)
      (lastError : option JsError) :
  30 < nowSeconds env (clockReads w) - startTime ->
  waitReachableLoop env (S fuel) port startTime lastError w
  = (match lastError with
     | Some error => Thrown error
     | None => Returned tt
     end, tickClock w).
Proof.
  intro Hlate.
  cbn [waitReachableLoop]. unfold bind at 1; unfold now at 1.
  replace (nowSeconds env (clockReads w) - startTime <=? 30) with false
    by (symmetry; apply Z.leb_gt; lia).
  destruct lastError; reflexivity.
Qed.

(** After the retries, a probe succeeds within the budget: the wait
    returns. *)
Lemma waitReachableLoop_reached (startTime : Z) (fuel : nat) (w : World)
      (lastError : option JsError) :
  nowSeconds env (clockReads w) - startTime <= 30 ->
  clientWait env port 1000 (probes w) = Resolved tt ->
  waitReachableLoop env (S fuel) port startTime lastError w
  = (Returned tt, reached port w).
Proof.
  intros Hcheck Hprobe.
  apply Z.leb_le in Hcheck.
  cbn [waitReachableLoop]. unfold bind at 1; unfold now at 1.
  rewrite Hcheck.
  unfold bind at 1, tryCatch at 1, bind at 1, wait at 1.
  cbn [probes tickClock]. rewrite Hprobe. reflexivity.
Qed.

End Waits.

(** * Frames of the methods, instantiated *)

#[global] Instance observations_observing : Observing (logsOnly isObservation).
Proof. apply logsOnly_observing. auto. Qed.

#[global] Instance notLaunch_observing : Observing (logsOnly notLaunch).
Proof. apply logsOnly_observing. intros [] E; (discriminate E || reflexivity). Qed.

#[global] Instance notWrite_observing : Observing (logsOnly notWrite).
Proof. apply logsOnly_observing. intros [] E; (discriminate E || reflexivity). Qed.

#[global] Instance notWrite_launching : Launching (logsOnly notWrite).
Proof.
  apply logsOnly_launching.
  intros e [E | [child ->]]; [destruct e; (discriminate E || reflexivity) | reflexivity].
Qed.

(** [checkAlive] never calls the callback or the Launcher. *)
Lemma checkAlive_never_launches (env : Env) (self : ServerManager) (fuel : nat)
      (port : Z) (w : World) :
  filter isLaunch (trace (snd (checkAlive env self fuel port w)))
  = filter isLaunch (trace w).
Proof.
  apply (logsOnly_filter notLaunch).
  - intros [] E; (discriminate E || reflexivity).
  - apply (checkAlive_keeps (logsOnly notLaunch)).
    + intro p. apply logsOnly_killProcess. reflexivity.
    + apply logsOnly_remove. reflexivity.
Qed.

(** * [start], once [checkAlive] has returned *)

Section Start.

Variable env : Env.
Variable self : ServerManager.
Variable fuel : nat.
Variable port : Z.
Variable binary : Binary.
Variable onStart : option Callback.

Lemma start_owner (w w1 : World) (p : JsNum) :
  checkAlive env self fuel port w = (Returned (Some p), w1) ->
  start env self fuel port binary onStart w = (Returned (mkStartResult p false), w1).
Proof.
  intro Hcheck. unfold start.
  rewrite (bind_returned _ _ _ _ _ Hcheck). reflexivity.
Qed.

Lemma start_launches (w w1 : World) :
  checkAlive env self fuel port w = (Returned None, w1) ->
  start env self fuel port binary onStart w
  = (waitRunning env fuel (Num (childPid env (spawned w1))) ;;
     waitReachable env fuel port ;;
     ret (mkStartResult (Num (childPid env (spawned w1))) true))
      (launched env binary onStart w1).
Proof.
  intro Hcheck. unfold start.
  rewrite (bind_returned _ _ _ _ _ Hcheck).
  unfold launched. destruct onStart; reflexivity.
Qed.

Lemma launched_launches (w : World) :
  filter isLaunch (trace (launched env binary onStart w))
  = Spawn (cmd binary) (firstArgs binary ++ ["start"; "server"]) true "ignore"
    :: (match onStart with
        | Some f => [Invoke f]
        | None => []
        end ++ filter isLaunch (trace w))%list.
Proof. unfold launched. destruct onStart; reflexivity. Qed.

(** The waits of [start] call neither the callback nor the Launcher. *)
Lemma waits_never_launch (child : Z) (result : StartResult) (w : World) :
  filter isLaunch
         (trace (snd ((waitRunning env fuel (Num child) ;;
                       waitReachable env fuel port ;;
                       ret result) w)))
  = filter isLaunch (trace w).
Proof.
  apply (logsOnly_filter notLaunch).
  - intros [] E; (discriminate E || reflexivity).
  - assert (K : keeps (logsOnly notLaunch)
                      (waitRunning env fuel (Num child) ;;
                       waitReachable env fuel port ;;
                       ret result))
      by frame_with ltac:(apply waitRunning_keeps || apply waitReachable_keeps).
    exact (K w).
Qed.

End Start.

(** * The claims *)

(** C1, as the code has it: a lock file whose content is not a number is read
    as the owner [NaN].  [parseInt] does not throw, so the handler that would
    delete the file and return "no owner" never runs: with the content [abc]
    the file stays and the result is [NaN], not [null]. *)
Theorem getServerPID_garbled_not_healed :
  let w := initial (Present "abc") in
  ParseInt.parseInt "abc" = NaN
  /\ getServerPID w = (Returned (Some NaN), log FsReadFile w)
  /\ pidFile (snd (getServerPID w)) = Present "abc"
  /\ ~ In FsRemove (trace (snd (getServerPID w))).
Proof.
  cbv zeta. repeat split; try reflexivity.
  cbn. intros [E | []]. discriminate E.
Qed.

(** C9: when reading the lock file fails, a failure with the code [ENOENT]
    (a missing file raises one) makes [getServerPID] return [null], and any
    other failure is thrown to the caller as it is. *)
Theorem getServerPID_read_failure (w : World) (error : JsError) :
  (pidFile w = Absent /\ error = enoent) \/ pidFile w = Unreadable error ->
  getServerPID w
  = (if isENOENT error then Returned None else Thrown error, log FsReadFile w)
  /\ isENOENT enoent = true.
Proof.
  intros [[Hfile ->] | Hfile]; split; try reflexivity.
  - apply getServerPID_absent, Hfile.
  - apply getServerPID_unreadable, Hfile.
Qed.

Lemma getServerPID_read_failure_witness :
  getServerPID (initial (Unreadable Scenario.denied))
  = (Thrown Scenario.denied, log FsReadFile (initial (Unreadable Scenario.denied)))
  /\ getServerPID (initial Absent) = (Returned None, log FsReadFile (initial Absent)).
Proof.
  split.
  - apply (getServerPID_read_failure (initial (Unreadable Scenario.denied))
                                     Scenario.denied).
    right. reflexivity.
  - apply (getServerPID_read_failure (initial Absent) enoent).
    left. split; reflexivity.
Defined.

(** C10, as stated, fails for a numeral beyond 2^53: the lock file
    [9007199254740993abc] is read as 9007199254740992, the nearest double,
    not as the integer that the numeral denotes. *)
Lemma getServerPID_numeral_rounded :
  let ds := [9; 0; 0; 7; 1; 9; 9; 2; 5; 4; 7; 4; 0; 9; 9; 3] in
  let w := initial (Present (ParseInt.numeral ds ++ "abc")) in
  ParseInt.numeral ds ++ "abc" = "9007199254740993abc"
  /\ ParseInt.decimalValue ds = 9007199254740993
  /\ getServerPID w = (Returned (Some (Num 9007199254740992)), log FsReadFile w)
  /\ fst (getServerPID w) <> Returned (Some (Num (ParseInt.decimalValue ds))).
Proof.
  cbv zeta. repeat split; try (vm_compute; reflexivity).
  vm_compute. intro E. discriminate E.
Qed.

(** C10, amended: a lock file that starts with a decimal numeral, followed by
    anything that does not continue the numeral, is read as the double
    nearest to the value of the numeral, which is that value itself as long
    as it does not exceed [Number.MAX_SAFE_INTEGER]; the file is left in
    place. *)
Theorem getServerPID_lenient_prefix (w : World) (ds : list Z) (rest : string) :
  ds <> [] ->
  Forall ParseInt.isDigit ds ->
  ParseInt.stopsNumeral rest ->
  pidFile w = Present (ParseInt.numeral ds ++ rest) ->
  getServerPID w
  = (Returned (Some (toNumber (ParseInt.decimalValue ds))), log FsReadFile w)
  /\ (ParseInt.decimalValue ds <= maxSafeInteger ->
      getServerPID w
      = (Returned (Some (Num (ParseInt.decimalValue ds))), log FsReadFile w))
  /\ pidFile (snd (getServerPID w)) = Present (ParseInt.numeral ds ++ rest).
Proof.
  intros Hne Hds Hrest Hfile.
  assert (Hread : getServerPID w
                  = (Returned (Some (toNumber (ParseInt.decimalValue ds))),
                     log FsReadFile w)).
  { rewrite (getServerPID_present w _ Hfile).
    rewrite (ParseIntFacts.parseInt_numeral ds rest Hne Hds Hrest). reflexivity. }
  split; [exact Hread | split].
  - intro Hsafe. rewrite Hread.
    rewrite ParseIntFacts.toNumber_safe; [reflexivity |].
    pose proof (ParseIntFacts.decimalValue_nonneg ds Hds) as Hpos.
    unfold maxSafeInteger in *. lia.
  - rewrite getServerPID_keeps_file. exact Hfile.
Qed.

Lemma getServerPID_lenient_prefix_witness :
  getServerPID (initial (Present "123abc"))
  = (Returned (Some (Num 123)), log FsReadFile (initial (Present "123abc")))
  /\ pidFile (snd (getServerPID (initial (Present "123abc")))) = Present "123abc".
Proof.
  destruct (getServerPID_lenient_prefix (initial (Present "123abc")) [1; 2; 3] "abc")
    as [_ [Hexact Hkept]].
  - discriminate.
  - repeat constructor; unfold ParseInt.isDigit; lia.
  - reflexivity.
  - reflexivity.
  - split; [| exact Hkept].
    apply Hexact. vm_compute. intro E. discriminate E.
Defined.

(** C2: when the lock file holds the identifier of the calling process,
    [checkAlive] returns it, whatever the fuel, and asks the client nothing:
    no version query and no probe is counted or logged. *)
Theorem checkAlive_own_pid (env : Env) (self : ServerManager) (fuel : nat)
        (port : Z) (w : World) (contents : string) :
  pidFile w = Present contents ->
  ParseInt.parseInt contents = Num (processPid env) ->
  exists w',
    checkAlive env self fuel port w = (Returned (Some (Num (processPid env))), w')
    /\ versionQueries w' = versionQueries w
    /\ probes w' = probes w
    /\ filter isClientCall (trace w') = filter isClientCall (trace w).
Proof.
  intros Hfile Hparse.
  exists (log FsReadFile w). split; [| repeat split].
  unfold checkAlive.
  rewrite (bind_returned _ _ _ _ _ (getServerPID_present w contents Hfile)).
  rewrite Hparse. cbn [isOwnPid strictEq].
  rewrite Z.eqb_refl. reflexivity.
Qed.

Lemma checkAlive_own_pid_witness :
  exists w',
    checkAlive Scenario.silent Scenario.server 0 8080 (initial (Present "100"))
    = (Returned (Some (Num 100)), w')
    /\ versionQueries w' = 0%nat
    /\ probes w' = 0%nat
    /\ filter isClientCall (trace w') = [].
Proof.
  apply (checkAlive_own_pid Scenario.silent Scenario.server 0 8080
                            (initial (Present "100")) "100");
    reflexivity.
Defined.

(** [checkAlive] up to the handshake, for an owner that is another process
    and is alive. *)
Lemma checkAlive_handshake (env : Env) (self : ServerManager) (fuel : nat)
      (port : Z) (w : World) (contents : string) (p : Z) :
  pidFile w = Present contents ->
  ParseInt.parseInt contents = Num p ->
  p <> processPid env ->
  isRunning env (livenessQueries w) (Num p) = true ->
  checkAlive env self fuel port w
  = (sameVersion <- isSameVersion env fuel port (_serverVersion self) ;;
     if sameVersion then ret (Some (Num p))
     else
       killProcess (Num p) ;;
       remove ;;
       ret None) (handshakeEntry w).
Proof.
  intros Hfile Hparse Hother Halive.
  unfold checkAlive.
  rewrite (bind_returned _ _ _ _ _ (getServerPID_present w contents Hfile)).
  rewrite Hparse. cbn [isOwnPid strictEq].
  apply Z.eqb_neq in Hother. rewrite Hother.
  unfold bind at 1. unfold running at 1.
  cbn [livenessQueries log]. rewrite Halive.
  fold (handshakeEntry w).
  unfold bind.
  destruct (isSameVersion env fuel port (_serverVersion self) (handshakeEntry w))
    as [[[] | error |] w']; reflexivity.
Qed.

(** C3: the lock file names another process, the Liveness Oracle reports it
    alive, the first [k] version queries fail and the next one is answered
    with the expected version, all within the five seconds.  Then, with fuel
    for [k + 1] rounds, [checkAlive] returns that owner, calls no
    [killProcess] and leaves the lock file as it was. *)
Theorem checkAlive_confirmed (env : Env) (self : ServerManager) (fuel : nat)
        (port : Z) (w : World) (contents : string) (p : Z) (k : nat) :
  pidFile w = Present contents ->
  ParseInt.parseInt contents = Num p ->
  p <> processPid env ->
  isRunning env (livenessQueries w) (Num p) = true ->
  (forall i, (i <= k)%nat ->
             nowSeconds env (clockReads w + 1 + i) - nowSeconds env (clockReads w) <= 5) ->
  (forall i, (i < k)%nat ->
             exists error,
               clientGetVersion env port (versionQueries w + i) = Rejected error) ->
  clientGetVersion env port (versionQueries w + k) = Resolved (_serverVersion self) ->
  (k < fuel)%nat ->
  exists w',
    checkAlive env self fuel port w = (Returned (Some (Num p)), w')
    /\ filter isKill (trace w') = filter isKill (trace w)
    /\ pidFile w' = pidFile w.
Proof.
  intros Hfile Hparse Hother Halive Hbudget Hfail Hanswer Hfuel.
  rewrite (checkAlive_handshake env self fuel port w contents p) by assumption.
  set (entry := handshakeEntry w).
  assert (Hsame : fst (isSameVersion env fuel port (_serverVersion self) entry)
                  = Returned true).
  { unfold isSameVersion, bind at 1, now at 1.
    rewrite (isSameVersionLoop_answered env port (_serverVersion self)
                                        (_serverVersion self) _ k).
    - rewrite String.eqb_refl. reflexivity.
    - exact Hfuel.
    - intros i Hi. cbn [clockReads tickClock entry handshakeEntry tickLiveness log].
      replace (S (clockReads w) + i)%nat with (clockReads w + 1 + i)%nat by lia.
      apply Hbudget, Hi.
    - intros i Hi. apply Hfail, Hi.
    - exact Hanswer. }
  pose proof (isSameVersion_keeps (logsOnly isObservation) env fuel port
                                  (_serverVersion self) entry) as Hlog.
  pose proof (isSameVersion_keeps sameFile env fuel port
                                  (_serverVersion self) entry) as Hkept.
  apply run_pair in Hsame.
  set (w' := snd (isSameVersion env fuel port (_serverVersion self) entry)) in *.
  exists w'. split; [| split].
  - rewrite (bind_returned _ _ _ _ _ Hsame). reflexivity.
  - rewrite (logsOnly_filter isObservation isKill entry w'); [reflexivity | | exact Hlog].
    intros [] E; (discriminate E || reflexivity).
  - exact Hkept.
Qed.

Lemma checkAlive_confirmed_witness :
  exists w',
    checkAlive Scenario.answering Scenario.server 3 8080 (initial (Present "4321"))
    = (Returned (Some (Num 4321)), w')
    /\ filter isKill (trace w') = []
    /\ pidFile w' = Present "4321".
Proof.
  apply (checkAlive_confirmed Scenario.answering Scenario.server 3 8080
                              (initial (Present "4321")) "4321" 4321 2).
  - reflexivity.
  - reflexivity.
  - discriminate.
  - reflexivity.
  - intros i Hi. cbn. lia.
  - intros i Hi. exists Scenario.refused.
    destruct i as [| [| i]]; [reflexivity | reflexivity | lia].
  - reflexivity.
  - lia.
Defined.

(** C4: the lock file names another process, the Liveness Oracle reports it
    alive, no version query is ever answered with the expected version, and
    by round [n] the five seconds are over or a query has been answered.
    Then, with fuel for [n + 1] rounds, [checkAlive] calls [killProcess] on
    that owner, then removes the lock file, and returns [null]. *)
Theorem checkAlive_unconfirmed (env : Env) (self : ServerManager) (fuel : nat)
        (port : Z) (w : World) (contents : string) (p : Z) (n : nat) :
  pidFile w = Present contents ->
  ParseInt.parseInt contents = Num p ->
  p <> processPid env ->
  isRunning env (livenessQueries w) (Num p) = true ->
  (forall i,
      clientGetVersion env port (versionQueries w + i) <> Resolved (_serverVersion self)) ->
  (5 < nowSeconds env (clockReads w + 1 + n) - nowSeconds env (clockReads w)
   \/ exists version,
       clientGetVersion env port (versionQueries w + n) = Resolved version) ->
  (n < fuel)%nat ->
  exists w' queries,
    checkAlive env self fuel port w = (Returned None, w')
    /\ trace w' = (FsRemove :: KillProcess (Num p) :: queries ++ FsReadFile :: trace w)%list
    /\ forallb isObservation queries = true
    /\ pidFile w' = Absent.
Proof.
  intros Hfile Hparse Hother Halive Hnever Hexit Hfuel.
  rewrite (checkAlive_handshake env self fuel port w contents p) by assumption.
  set (entry := handshakeEntry w).
  assert (Hsame : fst (isSameVersion env fuel port (_serverVersion self) entry)
                  = Returned false).
  { unfold isSameVersion, bind at 1, now at 1.
    apply (isSameVersionLoop_unconfirmed env port (_serverVersion self) _ n).
    - exact Hfuel.
    - exact Hnever.
    - cbn [clockReads versionQueries tickClock entry handshakeEntry tickLiveness log].
      replace (S (clockReads w) + n)%nat with (clockReads w + 1 + n)%nat by lia.
      exact Hexit. }
  destruct (isSameVersion_keeps (logsOnly isObservation) env fuel port
                                (_serverVersion self) entry)
    as [queries [Htrace Hqueries]].
  apply run_pair in Hsame.
  set (w1 := snd (isSameVersion env fuel port (_serverVersion self) entry)) in *.
  exists (setPidFile Absent (log FsRemove (log (KillProcess (Num p)) w1))), queries.
  split; [| split; [| split]].
  - rewrite (bind_returned _ _ _ _ _ Hsame). reflexivity.
  - cbn [trace setPidFile log]. rewrite Htrace. reflexivity.
  - exact Hqueries.
  - reflexivity.
Qed.

Lemma checkAlive_unconfirmed_witness :
  exists w' queries,
    checkAlive Scenario.silent Scenario.server 3 8080 (initial (Present "4321"))
    = (Returned None, w')
    /\ trace w' = (FsRemove :: KillProcess (Num 4321) :: queries ++ [FsReadFile])%list
    /\ forallb isObservation queries = true
    /\ pidFile w' = Absent.
Proof.
  apply (checkAlive_unconfirmed Scenario.silent Scenario.server 3 8080
                                (initial (Present "4321")) "4321" 4321 2).
  - reflexivity.
  - reflexivity.
  - discriminate.
  - reflexivity.
  - intro i. discriminate.
  - left. cbn. lia.
  - lia.
Defined.

(** C5: when [checkAlive] returns an owner, [start] returns that owner with
    [started: false] in the world [checkAlive] left, and neither the callback
    nor the Launcher has been called. *)
Theorem start_existing_owner (env : Env) (self : ServerManager) (fuel : nat)
        (port : Z) (binary : Binary) (onStart : option Callback)
        (w w1 : World) (p : JsNum) :
  checkAlive env self fuel port w = (Returned (Some p), w1) ->
  start env self fuel port binary onStart w = (Returned (mkStartResult p false), w1)
  /\ filter isLaunch (trace w1) = filter isLaunch (trace w)
  /\ spawned w1 = spawned w.
Proof.
  intro Hcheck. split; [| split].
  - apply start_owner, Hcheck.
  - pose proof (checkAlive_never_launches env self fuel port w) as Hquiet.
    rewrite Hcheck in Hquiet. exact Hquiet.
  - pose proof (checkAlive_keeps sameSpawned env sameSpawned_killProcess
                                 sameSpawned_remove self fuel port w) as Hcount.
    rewrite Hcheck in Hcount. exact Hcount.
Qed.

Lemma start_existing_owner_witness :
  let w := initial (Present "4321") in
  let w1 := snd (checkAlive Scenario.answering Scenario.server 3 8080 w) in
  checkAlive Scenario.answering Scenario.server 3 8080 w
  = (Returned (Some (Num 4321)), w1)
  /\ start Scenario.answering Scenario.server 3 8080 Scenario.binary (Some 7%nat) w
     = (Returned (mkStartResult (Num 4321) false), w1)
  /\ filter isLaunch (trace w1) = filter isLaunch (trace w)
  /\ spawned w1 = spawned w.
Proof.
  cbv zeta.
  assert (Hcheck : checkAlive Scenario.answering Scenario.server 3 8080
                              (initial (Present "4321"))
                   = (Returned (Some (Num 4321)),
                      snd (checkAlive Scenario.answering Scenario.server 3 8080
                                      (initial (Present "4321")))))
    by (vm_compute; reflexivity).
  split; [exact Hcheck |].
  exact (start_existing_owner Scenario.answering Scenario.server 3 8080
                              Scenario.binary (Some 7%nat) _ _ _ Hcheck).
Defined.

(** C6: when [checkAlive] returns [null], [start] calls the callback once (if
    there is one) and then the Launcher once, detached, with [start server]
    after the binary's own arguments; no other call of either is made,
    whatever becomes of the waits.  Once the liveness wait and then the
    reachability wait have returned, [start] returns the child's identifier
    with [started: true]. *)
Theorem start_fresh (env : Env) (self : ServerManager) (fuel : nat)
        (port : Z) (binary : Binary) (onStart : option Callback) (w w1 : World) :
  checkAlive env self fuel port w = (Returned None, w1) ->
  let child := childPid env (spawned w1) in
  filter isLaunch (trace (snd (start env self fuel port binary onStart w)))
  = Spawn (cmd binary) (firstArgs binary ++ ["start"; "server"]) true "ignore"
    :: (match onStart with
        | Some f => [Invoke f]
        | None => []
        end ++ filter isLaunch (trace w))%list
  /\ forall w3 w4,
      waitRunning env fuel (Num child) (launched env binary onStart w1)
      = (Returned tt, w3) ->
      waitReachable env fuel port w3 = (Returned tt, w4) ->
      start env self fuel port binary onStart w
      = (Returned (mkStartResult (Num child) true), w4).
Proof.
  intros Hcheck child.
  rewrite (start_launches env self fuel port binary onStart w w1 Hcheck).
  fold child. split.
  - rewrite waits_never_launch, launched_launches.
    pose proof (checkAlive_never_launches env self fuel port w) as Hquiet.
    rewrite Hcheck in Hquiet. cbn [snd] in Hquiet. rewrite Hquiet. reflexivity.
  - intros w3 w4 Hrunning Hreachable.
    rewrite (bind_returned _ _ _ _ _ Hrunning).
    rewrite (bind_returned _ _ _ _ _ Hreachable). reflexivity.
Qed.

Lemma start_fresh_witness :
  let w := initial Absent in
  let w1 := log FsReadFile w in
  let w3 := snd (waitRunning Scenario.answering 3 (Num 4322)
                             (launched Scenario.answering Scenario.binary
                                       (Some 7%nat) w1)) in
  let w4 := snd (waitReachable Scenario.answering 3 8080 w3) in
  checkAlive Scenario.answering Scenario.server 3 8080 w = (Returned None, w1)
  /\ filter isLaunch
            (trace (snd (start Scenario.answering Scenario.server 3 8080
                               Scenario.binary (Some 7%nat) w)))
     = [Spawn "neo-one" ["--dir"; "/var/neo-one"; "start"; "server"] true "ignore";
        Invoke 7%nat]
  /\ start Scenario.answering Scenario.server 3 8080 Scenario.binary (Some 7%nat) w
     = (Returned (mkStartResult (Num 4322) true), w4).
Proof.
  cbv zeta.
  assert (Hcheck : checkAlive Scenario.answering Scenario.server 3 8080 (initial Absent)
                   = (Returned None, log FsReadFile (initial Absent)))
    by (vm_compute; reflexivity).
  destruct (start_fresh Scenario.answering Scenario.server 3 8080 Scenario.binary
                        (Some 7%nat) _ _ Hcheck) as [Hlaunch Hresult].
  split; [exact Hcheck | split].
  - vm_compute in Hlaunch. vm_compute. exact Hlaunch.
  - apply (Hresult (snd (waitRunning Scenario.answering 3 (Num 4322)
                                     (launched Scenario.answering Scenario.binary
                                               (Some 7%nat)
                                               (log FsReadFile (initial Absent))))));
      vm_compute; reflexivity.
Defined.

(** C7: [start] has launched the child and the liveness wait has returned;
    then [k] probes fail one after the other within the thirty seconds.
    Each failed probe is followed by a sleep of 100 ms and another test of
    the budget, and nothing else.  If by then the thirty seconds are over
    (and at least one probe was made), [start] throws the error of the last
    probe; if instead the next probe succeeds within the budget, the earlier
    errors are forgotten and [start] returns. *)
Theorem start_reachability_budget (env : Env) (self : ServerManager) (fuel : nat)
        (port : Z) (binary : Binary) (onStart : option Callback)
        (w w1 w3 : World) (k : nat) (errors : nat -> JsError) :
  checkAlive env self fuel port w = (Returned None, w1) ->
  waitRunning env fuel (Num (childPid env (spawned w1))) (launched env binary onStart w1)
  = (Returned tt, w3) ->
  (forall i, (i < k)%nat ->
             nowSeconds env (clockReads w3 + 1 + i) - nowSeconds env (clockReads w3) <= 30
             /\ clientWait env port 1000 (probes w3 + i) = Rejected (errors i)) ->
  (k < fuel)%nat ->
  let entered := retried port k (tickClock w3) in
  let elapsed := nowSeconds env (clockReads w3 + 1 + k) - nowSeconds env (clockReads w3) in
  trace entered = (backoffs port k ++ trace w3)%list
  /\ ((0 < k)%nat ->
      30 < elapsed ->
      start env self fuel port binary onStart w
      = (Thrown (errors (k - 1)%nat), tickClock entered))
  /\ (elapsed <= 30 ->
      clientWait env port 1000 (probes w3 + k) = Resolved tt ->
      start env self fuel port binary onStart w
      = (Returned (mkStartResult (Num (childPid env (spawned w1))) true),
         reached port entered)).
Proof.
  intros Hcheck Hrunning Hfail Hfuel entered elapsed.
  assert (Hstart :
            start env self fuel port binary onStart w
            = (waitReachableLoop env (S (fuel - k - 1)) port
                                 (nowSeconds env (clockReads w3))
                                 (lastErrorAfter errors None k) ;;
               ret (mkStartResult (Num (childPid env (spawned w1))) true)) entered).
  { rewrite (start_launches env self fuel port binary onStart w w1 Hcheck).
    rewrite (bind_returned _ _ _ _ _ Hrunning).
    unfold waitReachable, bind at 1, bind at 1, now at 1.
    replace fuel with (k + S (fuel - k - 1))%nat at 1 by lia.
    rewrite (waitReachableLoop_retries env port _ k _ _ None errors).
    - reflexivity.
    - intros i Hi. cbn [clockReads probes tickClock].
      replace (S (clockReads w3) + i)%nat with (clockReads w3 + 1 + i)%nat by lia.
      apply Hfail, Hi. }
  destruct (retried_counters port k (tickClock w3)) as [Hclock [Hprobes _]].
  cbn [clockReads probes tickClock] in Hclock, Hprobes.
  fold entered in Hclock, Hprobes.
  assert (Hnow : nowSeconds env (clockReads entered) - nowSeconds env (clockReads w3)
                 = elapsed).
  { unfold elapsed. rewrite Hclock. f_equal. f_equal. lia. }
  split; [| split].
  - unfold entered. rewrite retried_trace. reflexivity.
  - intros Hsome Hlate. rewrite Hstart.
    unfold bind.
    rewrite waitReachableLoop_exhausted by (rewrite Hnow; exact Hlate).
    destruct k as [| k]; [lia |].
    cbn [lastErrorAfter]. replace (S k - 1)%nat with k by lia. reflexivity.
  - intros Hintime Hprobe. rewrite Hstart.
    unfold bind.
    rewrite waitReachableLoop_reached.
    + reflexivity.
    + rewrite Hnow. exact Hintime.
    + rewrite Hprobes. exact Hprobe.
Qed.

Lemma start_reachability_budget_witness :
  fst (start Scenario.down Scenario.server 4 8080 Scenario.binary None (initial Absent))
  = Thrown (Scenario.unreachable 2)
  /\ fst (start Scenario.answering Scenario.server 3 8080 Scenario.binary None
                (initial Absent))
     = Returned (mkStartResult (Num 4322) true).
Proof.
  split.
  - destruct (start_reachability_budget
                Scenario.down Scenario.server 4 8080 Scenario.binary None
                (initial Absent) (log FsReadFile (initial Absent))
                (snd (waitRunning Scenario.down 4 (Num 4322)
                                  (launched Scenario.down Scenario.binary None
                                            (log FsReadFile (initial Absent)))))
                3 Scenario.unreachable)
      as [_ [Hthrown _]].
    + vm_compute; reflexivity.
    + vm_compute; reflexivity.
    + intros i Hi.
      destruct i as [| [| [| i]]]; [| | | lia];
        (split; vm_compute; [intro E; discriminate E | reflexivity]).
    + lia.
    + rewrite Hthrown; [reflexivity | lia | vm_compute; reflexivity].
  - destruct (start_reachability_budget
                Scenario.answering Scenario.server 3 8080 Scenario.binary None
                (initial Absent) (log FsReadFile (initial Absent))
                (snd (waitRunning Scenario.answering 3 (Num 4322)
                                  (launched Scenario.answering Scenario.binary None
                                            (log FsReadFile (initial Absent)))))
                1 Scenario.unreachable)
      as [_ [_ Hreturned]].
    + vm_compute; reflexivity.
    + vm_compute; reflexivity.
    + intros i Hi.
      destruct i as [| i]; [| lia];
        (split; vm_compute; [intro E; discriminate E | reflexivity]).
    + lia.
    + rewrite Hreturned;
        [reflexivity | vm_compute; intro E; discriminate E | vm_compute; reflexivity].
Defined.

(** What [writePID] does: the directory is ensured, the file is written with
    the decimal text of the identifier. *)
Lemma writePID_writes (p : JsNum) (w : World) :
  writePID p w
  = (Returned tt,
     setPidFile (Present (numberToString p))
                (log (FsWriteFile (numberToString p)) (log FsEnsureDir w))).
Proof. reflexivity. Qed.

(** C8: whatever [start] does (it returns, throws, or is cut short), none of
    the two calls of [writePID] is logged in between, and the lock file is as
    it was or has been removed: [start] never creates or overwrites it.
    [writePID] itself does log them, so the caller has to call it. *)
Theorem start_never_writes (env : Env) (self : ServerManager) (fuel : nat)
        (port : Z) (binary : Binary) (onStart : option Callback) (w : World) :
  let w' := snd (start env self fuel port binary onStart w) in
  filter isWrite (trace w') = filter isWrite (trace w)
  /\ (pidFile w' = pidFile w \/ pidFile w' = Absent)
  /\ forall p,
      filter isWrite (trace (snd (writePID p w')))
      = FsWriteFile (numberToString p) :: FsEnsureDir :: filter isWrite (trace w).
Proof.
  intro w'.
  assert (Hlog : filter isWrite (trace w') = filter isWrite (trace w)).
  { apply (logsOnly_filter notWrite).
    - intros [] E; (discriminate E || reflexivity).
    - apply (start_keeps (logsOnly notWrite)).
      + intro p. apply logsOnly_killProcess. reflexivity.
      + apply logsOnly_remove. reflexivity.
      + exact notWrite_launching. }
  split; [exact Hlog | split].
  - apply (start_keeps notWritten).
    + exact notWritten_killProcess.
    + exact notWritten_remove.
    + exact notWritten_launching.
  - intro p. rewrite writePID_writes. cbn [snd trace setPidFile log filter isWrite].
    rewrite Hlog. reflexivity.
Qed.

(** * Further properties of [ServerManager.js] *)

(** ** The version handshake and the liveness wait, round by round *)

Lemma queried_trace (port : Z) (n : nat) :
  forall w, trace (queried port n w) = (repeat (ClientGetVersion port) n ++ trace w)%list.
Proof.
  induction n as [| n IH]; intro w; [reflexivity |].
  cbn [queried]. rewrite IH. cbn [trace query tickVersion log tickClock].
  change (ClientGetVersion port :: trace w)
    with ([ClientGetVersion port] ++ trace w)%list.
  rewrite app_assoc. f_equal.
  rewrite <- repeat_cons. reflexivity.
Qed.

Lemma queried_counters (port : Z) (n : nat) :
  forall w,
    versionQueries (queried port n w) = (versionQueries w + n)%nat
    /\ pidFile (queried port n w) = pidFile w.
Proof.
  induction n as [| n IH]; intro w; cbn [queried].
  - split; [lia | reflexivity].
  - destruct (IH (query port w)) as [Hq Hf]. rewrite Hq, Hf. cbn. split; [lia | reflexivity].
Qed.

Lemma isSameVersionLoop_rounds (env : Env) (port : Z) (expected version : string)
      (startTime : Z) (k : nat) :
  forall (fuel : nat) (w : World),
    (k < fuel)%nat ->
    (forall i, (i <= k)%nat -> nowSeconds env (clockReads w + i) - startTime <= 5) ->
    (forall i, (i < k)%nat ->
               exists error,
                 clientGetVersion env port (versionQueries w + i) = Rejected error) ->
    clientGetVersion env port (versionQueries w + k) = Resolved version ->
    isSameVersionLoop env fuel port expected startTime w
    = (Returned (String.eqb version expected), queried port (S k) w).
Proof.
  induction k as [| k IH]; intros fuel w Hfuel Hbudget Hfail Hanswer;
    (destruct fuel as [| fuel]; [lia |]);
    cbn [isSameVersionLoop]; unfold bind at 1; unfold now at 1;
    pose proof (Hbudget 0%nat ltac:(lia)) as Hfirst;
    rewrite Nat.add_0_r in Hfirst;
    apply Z.leb_le in Hfirst; rewrite Hfirst;
    unfold bind at 1, tryCatch at 1, bind at 1, getVersion at 1;
    cbn [versionQueries tickClock log tickVersion].
  - rewrite Nat.add_0_r in Hanswer. rewrite Hanswer. reflexivity.
  - destruct (Hfail 0%nat ltac:(lia)) as [error Herror].
    rewrite Nat.add_0_r in Herror. rewrite Herror.
    cbn [settle ret].
    apply (IH fuel (query port w)).
    + lia.
    + intros i Hi. cbn [clockReads query tickVersion log tickClock].
      replace (S (clockReads w) + i)%nat with (clockReads w + S i)%nat by lia.
      apply Hbudget. lia.
    + intros i Hi. cbn [versionQueries query tickVersion log tickClock].
      replace (S (versionQueries w) + i)%nat with (versionQueries w + S i)%nat by lia.
      apply Hfail. lia.
    + cbn [versionQueries query tickVersion log tickClock].
      replace (S (versionQueries w) + k)%nat with (versionQueries w + S k)%nat by lia.
      exact Hanswer.
Qed.

(** X1: the first version query that is answered decides the handshake.
    After [k] failed queries, an answer within the five seconds makes
    [isSameVersion] return whether it is the expected version: a different
    version is not asked again, and the queries follow one another with no
    sleep in between. *)
Theorem isSameVersion_first_answer_decides (env : Env) (port : Z)
        (expected version : string) (k fuel : nat) (w : World) :
  (k < fuel)%nat ->
  (forall i, (i <= k)%nat ->
             nowSeconds env (clockReads w + 1 + i) - nowSeconds env (clockReads w) <= 5) ->
  (forall i, (i < k)%nat ->
             exists error,
               clientGetVersion env port (versionQueries w + i) = Rejected error) ->
  clientGetVersion env port (versionQueries w + k) = Resolved version ->
  let w' := queried port (S k) (tickClock w) in
  isSameVersion env fuel port expected w = (Returned (String.eqb version expected), w')
  /\ versionQueries w' = (versionQueries w + S k)%nat
  /\ trace w' = (repeat (ClientGetVersion port) (S k) ++ trace w)%list.
Proof.
  intros Hfuel Hbudget Hfail Hanswer w'. split; [| split].
  - unfold isSameVersion, bind at 1, now at 1.
    apply isSameVersionLoop_rounds; try assumption.
    intros i Hi. cbn [clockReads tickClock].
    replace (S (clockReads w) + i)%nat with (clockReads w + 1 + i)%nat by lia.
    apply Hbudget, Hi.
  - unfold w'. rewrite (proj1 (queried_counters port (S k) (tickClock w))). reflexivity.
  - unfold w'. rewrite queried_trace. reflexivity.
Qed.

Lemma isSameVersion_first_answer_decides_witness :
  let w := initial Absent in
  let w' := queried 8080 2 (tickClock w) in
  isSameVersion Cases.outdated 2 8080 "1.2.3" w = (Returned false, w')
  /\ versionQueries w' = 2%nat
  /\ trace w' = [ClientGetVersion 8080; ClientGetVersion 8080].
Proof.
  apply (isSameVersion_first_answer_decides Cases.outdated 8080 "1.2.3" "1.0.0" 1 2
                                            (initial Absent)).
  - lia.
  - intros i Hi. cbn. lia.
  - intros i Hi. exists Scenario.refused.
    destruct i as [| i]; [reflexivity | lia].
  - reflexivity.
Defined.

Lemma napped_counters (n : nat) :
  forall w,
    trace (napped n w) = (repeat (SetTimeout 100) n ++ trace w)%list
    /\ livenessQueries (napped n w) = (livenessQueries w + n)%nat
    /\ clockReads (napped n w) = (clockReads w + n)%nat
    /\ pidFile (napped n w) = pidFile w.
Proof.
  induction n as [| n IH]; intro w; cbn [napped].
  - repeat split; lia.
  - destruct (IH (nap w)) as [Ht [Hl [Hc Hf]]].
    rewrite Ht, Hl, Hc, Hf. cbn [trace livenessQueries clockReads pidFile nap log
                                  tickClock tickLiveness].
    repeat split; try lia.
    change (SetTimeout 100 :: trace w) with ([SetTimeout 100] ++ trace w)%list.
    rewrite app_assoc. f_equal.
    rewrite <- repeat_cons. reflexivity.
Qed.

Lemma waitRunningLoop_rounds (env : Env) (child : JsNum) (startTime : Z) (j : nat) :
  forall (fuel : nat) (w : World),
    (j < fuel)%nat ->
    (forall i, (i < j)%nat ->
               isRunning env (livenessQueries w + i) child = false
               /\ nowSeconds env (clockReads w + i) - startTime <= 5) ->
    (isRunning env (livenessQueries w + j) child = true
     \/ 5 < nowSeconds env (clockReads w + j) - startTime) ->
    waitRunningLoop env fuel child startTime w
    = (Returned tt,
       if isRunning env (livenessQueries w + j) child
       then tickLiveness (napped j w)
       else tickClock (tickLiveness (napped j w))).
Proof.
  induction j as [| j IH]; intros fuel w Hfuel Hwait Hexit;
    (destruct fuel as [| fuel]; [lia |]);
    cbn [waitRunningLoop]; unfold bind at 1; unfold running at 1.
  - rewrite !Nat.add_0_r in *. cbn [napped].
    destruct (isRunning env (livenessQueries w) child); [reflexivity |].
    destruct Hexit as [Hseen | Hlate]; [discriminate Hseen |].
    cbn [negb]. unfold bind at 1; unfold now at 1.
    cbn [clockReads tickLiveness].
    replace (nowSeconds env (clockReads w) - startTime <=? 5) with false
      by (symmetry; apply Z.leb_gt; lia).
    reflexivity.
  - destruct (Hwait 0%nat ltac:(lia)) as [Hdead Hcheck].
    rewrite Nat.add_0_r in Hdead, Hcheck.
    apply Z.leb_le in Hcheck.
    rewrite Hdead. cbn [negb]. unfold bind at 1; unfold now at 1.
    cbn [clockReads tickLiveness]. rewrite Hcheck.
    unfold bind at 1; unfold sleep at 1.
    change (log (SetTimeout 100) (tickClock (tickLiveness w))) with (nap w).
    rewrite (IH fuel (nap w)).
    + cbn [napped livenessQueries nap log tickClock tickLiveness].
      replace (S (livenessQueries w) + j)%nat with (livenessQueries w + S j)%nat by lia.
      reflexivity.
    + lia.
    + intros i Hi. cbn [livenessQueries clockReads nap log tickClock tickLiveness].
      replace (S (livenessQueries w) + i)%nat with (livenessQueries w + S i)%nat by lia.
      replace (S (clockReads w) + i)%nat with (clockReads w + S i)%nat by lia.
      apply Hwait. lia.
    + cbn [livenessQueries clockReads nap log tickClock tickLiveness].
      replace (S (livenessQueries w) + j)%nat with (livenessQueries w + S j)%nat by lia.
      replace (S (clockReads w) + j)%nat with (clockReads w + S j)%nat by lia.
      exact Hexit.
Qed.

(** X2: the liveness wait never fails.  While the child is not seen and the
    five seconds are not over it sleeps 100 ms and asks again; at round [j]
    the child is seen or the budget is over, and [waitRunning] returns either
    way, having slept exactly [j] times, asked the Liveness Oracle [j + 1]
    times and left the lock file alone. *)
Theorem waitRunning_returns_either_way (env : Env) (child : JsNum) (j fuel : nat)
        (w : World) :
  (j < fuel)%nat ->
  (forall i, (i < j)%nat ->
             isRunning env (livenessQueries w + i) child = false
             /\ nowSeconds env (clockReads w + 1 + i) - nowSeconds env (clockReads w) <= 5) ->
  (isRunning env (livenessQueries w + j) child = true
   \/ 5 < nowSeconds env (clockReads w + 1 + j) - nowSeconds env (clockReads w)) ->
  exists w',
    waitRunning env fuel child w = (Returned tt, w')
    /\ trace w' = (repeat (SetTimeout 100) j ++ trace w)%list
    /\ livenessQueries w' = (livenessQueries w + S j)%nat
    /\ pidFile w' = pidFile w.
Proof.
  intros Hfuel Hwait Hexit.
  unfold waitRunning, bind at 1, now at 1.
  rewrite (waitRunningLoop_rounds env child _ j fuel (tickClock w) Hfuel).
  - destruct (napped_counters j (tickClock w)) as [Ht [Hl [_ Hf]]].
    cbn [trace livenessQueries pidFile tickClock] in Ht, Hl, Hf.
    eexists. split; [reflexivity |].
    destruct (isRunning env (livenessQueries (tickClock w) + j) child);
      cbn [trace livenessQueries pidFile tickClock tickLiveness];
      rewrite Ht, Hl, Hf; repeat split; lia.
  - intros i Hi. cbn [livenessQueries clockReads tickClock].
    replace (S (clockReads w) + i)%nat with (clockReads w + 1 + i)%nat by lia.
    apply Hwait, Hi.
  - cbn [livenessQueries clockReads tickClock].
    replace (S (clockReads w) + j)%nat with (clockReads w + 1 + j)%nat by lia.
    exact Hexit.
Qed.

Lemma waitRunning_returns_either_way_witness :
  (exists w',
      waitRunning Cases.slowChild 3 (Num 4322) (initial Absent) = (Returned tt, w')
      /\ trace w' = [SetTimeout 100; SetTimeout 100]
      /\ livenessQueries w' = 3%nat
      /\ pidFile w' = Absent)
  /\ (exists w',
         waitRunning Cases.gone 7 (Num 4322) (initial Absent) = (Returned tt, w')
         /\ trace w' = repeat (SetTimeout 100) 5
         /\ livenessQueries w' = 6%nat
         /\ pidFile w' = Absent).
Proof.
  split.
  - apply (waitRunning_returns_either_way Cases.slowChild (Num 4322) 2 3 (initial Absent)).
    + lia.
    + intros i Hi. destruct i as [| [| i]]; [| | lia]; (split; [reflexivity | cbn; lia]).
    + left. reflexivity.
  - apply (waitRunning_returns_either_way Cases.gone (Num 4322) 5 7 (initial Absent)).
    + lia.
    + intros i Hi. split; [reflexivity |]. cbn. lia.
    + right. cbn. lia.
Defined.

(** X3: when the thirty seconds are already over at the first test of the
    budget, [waitReachable] makes no probe, has no error to throw, and
    returns as if the server had been reached. *)
Theorem waitReachable_without_probe (env : Env) (port : Z) (fuel : nat) (w : World) :
  30 < nowSeconds env (clockReads w + 1) - nowSeconds env (clockReads w) ->
  waitReachable env (S fuel) port w = (Returned tt, tickClock (tickClock w))
  /\ probes (tickClock (tickClock w)) = probes w
  /\ trace (tickClock (tickClock w)) = trace w.
Proof.
  intro Hlate. split; [| split; reflexivity].
  unfold waitReachable, bind at 1, now at 1.
  apply waitReachableLoop_exhausted.
  cbn [clockReads tickClock].
  replace (S (clockReads w)) with (clockReads w + 1)%nat by lia.
  exact Hlate.
Qed.

Lemma waitReachable_without_probe_witness :
  waitReachable Cases.stalled 1 8080 (initial Absent)
  = (Returned tt, tickClock (tickClock (initial Absent)))
  /\ probes (tickClock (tickClock (initial Absent))) = 0%nat
  /\ trace (tickClock (tickClock (initial Absent))) = [].
Proof.
  apply (waitReachable_without_probe Cases.stalled 8080 0 (initial Absent)).
  cbn. lia.
Defined.

(** ** Reconciliation, path by path *)

(** What [getServerPID] returns depends on the lock file only. *)
Lemma getServerPID_by_file (w w' : World) :
  pidFile w' = pidFile w -> fst (getServerPID w') = fst (getServerPID w).
Proof.
  intro Hsame.
  destruct (pidFile w) as [| contents | error] eqn:Hfile.
  - rewrite (getServerPID_absent w Hfile), (getServerPID_absent w') by congruence.
    reflexivity.
  - rewrite (getServerPID_present w contents Hfile),
            (getServerPID_present w' contents) by congruence.
    reflexivity.
  - rewrite (getServerPID_unreadable w error Hfile),
            (getServerPID_unreadable w' error) by congruence.
    reflexivity.
Qed.

(** [checkAlive] once the file has been read and names an owner. *)
Lemma checkAlive_named (env : Env) (self : ServerManager) (fuel : nat) (port : Z)
      (w : World) (contents : string) :
  pidFile w = Present contents ->
  strictEq (ParseInt.parseInt contents) (Num (processPid env)) = false ->
  checkAlive env self fuel port w
  = (if isRunning env (livenessQueries w) (ParseInt.parseInt contents)
     then
       sameVersion <- isSameVersion env fuel port (_serverVersion self) ;;
       if sameVersion then ret (Some (ParseInt.parseInt contents))
       else
         killProcess (ParseInt.parseInt contents) ;;
         remove ;;
         ret None
     else
       remove ;;
       ret None) (handshakeEntry w).
Proof.
  intros Hfile Hother.
  unfold checkAlive.
  rewrite (bind_returned _ _ _ _ _ (getServerPID_present w contents Hfile)).
  cbn [isOwnPid]. rewrite Hother.
  unfold bind at 1. unfold running at 1.
  cbn [livenessQueries log]. fold (handshakeEntry w).
  destruct (isRunning env (livenessQueries w) (ParseInt.parseInt contents));
    [| reflexivity].
  unfold bind.
  destruct (isSameVersion env fuel port (_serverVersion self) (handshakeEntry w))
    as [[[] | error |] w']; reflexivity.
Qed.

(** X4: a stale lock is cleared without a kill.  When the lock file names
    something that is not the calling process and that the Liveness Oracle
    does not see (a process that is gone, or the [NaN] of a garbled file),
    [checkAlive] removes the file and returns [null]; it asks the client
    nothing and terminates nothing. *)
Theorem checkAlive_stale_lock (env : Env) (self : ServerManager) (fuel : nat)
        (port : Z) (w : World) (contents : string) :
  pidFile w = Present contents ->
  strictEq (ParseInt.parseInt contents) (Num (processPid env)) = false ->
  isRunning env (livenessQueries w) (ParseInt.parseInt contents) = false ->
  let w' := setPidFile Absent (log FsRemove (handshakeEntry w)) in
  checkAlive env self fuel port w = (Returned None, w')
  /\ pidFile w' = Absent
  /\ trace w' = FsRemove :: FsReadFile :: trace w
  /\ versionQueries w' = versionQueries w.
Proof.
  intros Hfile Hother Hdead w'.
  split; [| repeat split].
  rewrite (checkAlive_named env self fuel port w contents Hfile Hother).
  rewrite Hdead. reflexivity.
Qed.

Lemma checkAlive_stale_lock_witness :
  let w := initial (Present "abc") in
  let w' := setPidFile Absent (log FsRemove (handshakeEntry w)) in
  checkAlive Cases.gone Scenario.server 0 8080 w = (Returned None, w')
  /\ pidFile w' = Absent
  /\ trace w' = [FsRemove; FsReadFile]
  /\ versionQueries w' = 0%nat.
Proof.
  apply (checkAlive_stale_lock Cases.gone Scenario.server 0 8080
                               (initial (Present "abc")) "abc");
    reflexivity.
Defined.

(** The answer of [checkAlive] is what the lock file says afterwards. *)
Lemma checkAlive_then_getServerPID (env : Env) (self : ServerManager) (fuel : nat)
      (port : Z) (w w' : World) (owner : option JsNum) :
  checkAlive env self fuel port w = (Returned owner, w') ->
  fst (getServerPID w') = Returned owner.
Proof.
  destruct (pidFile w) as [| contents | error] eqn:Hfile.
  - unfold checkAlive.
    rewrite (bind_returned _ _ _ _ _ (getServerPID_absent w Hfile)).
    cbn [isOwnPid ret]. intros [= <- <-].
    rewrite (getServerPID_absent (log FsReadFile w) Hfile). reflexivity.
  - destruct (strictEq (ParseInt.parseInt contents) (Num (processPid env))) eqn:Hown.
    + unfold checkAlive.
      rewrite (bind_returned _ _ _ _ _ (getServerPID_present w contents Hfile)).
      cbn [isOwnPid]. rewrite Hown. cbn [ret]. intros [= <- <-].
      rewrite (getServerPID_present (log FsReadFile w) contents Hfile). reflexivity.
    + rewrite (checkAlive_named env self fuel port w contents Hfile Hown).
      destruct (isRunning env (livenessQueries w) (ParseInt.parseInt contents)).
      * pose proof (isSameVersion_keeps sameFile env fuel port (_serverVersion self)
                                        (handshakeEntry w)) as Hkept.
        unfold sameFile in Hkept. unfold bind at 1.
        destruct (isSameVersion env fuel port (_serverVersion self) (handshakeEntry w))
          as [[[] | thrown |] w1]; cbn [snd] in Hkept.
        -- cbn [ret]. intros [= <- <-].
           rewrite (getServerPID_present w1 contents); [reflexivity |].
           rewrite Hkept. exact Hfile.
        -- intros [= <- <-]. reflexivity.
        -- discriminate.
        -- discriminate.
      * intros [= <- <-]. reflexivity.
  - unfold checkAlive, bind at 1.
    rewrite (getServerPID_unreadable w error Hfile).
    destruct (isENOENT error) eqn:Hcode.
    + cbn [isOwnPid ret]. intros [= <- <-].
      rewrite (getServerPID_unreadable (log FsReadFile w) error Hfile), Hcode.
      reflexivity.
    + discriminate.
Qed.

(** X5: [checkAlive] and the lock file agree.  Whenever [checkAlive]
    returns, reading the lock file right afterwards gives the same answer:
    an owner that is returned is still the one recorded, and when [null] is
    returned the file names no owner any more. *)
Theorem checkAlive_agrees_with_lock (env : Env) (self : ServerManager) (fuel : nat)
        (port : Z) (w w' : World) (owner : option JsNum) :
  checkAlive env self fuel port w = (Returned owner, w') ->
  fst (getServerPID w') = Returned owner.
Proof. apply checkAlive_then_getServerPID. Qed.

Lemma checkAlive_agrees_with_lock_witness :
  let run := checkAlive Scenario.silent Scenario.server 3 8080 (initial (Present "4321")) in
  run = (Returned None, snd run)
  /\ fst (getServerPID (snd run)) = Returned None.
Proof.
  cbv zeta.
  assert (Hrun : checkAlive Scenario.silent Scenario.server 3 8080
                            (initial (Present "4321"))
                 = (Returned None,
                    snd (checkAlive Scenario.silent Scenario.server 3 8080
                                    (initial (Present "4321")))))
    by (vm_compute; reflexivity).
  split; [exact Hrun |].
  exact (checkAlive_agrees_with_lock Scenario.silent Scenario.server 3 8080 _ _ _ Hrun).
Defined.

(** X6: [checkAlive] terminates at most one process, and only the one the
    lock file names, never the calling process.  For every fuel and every
    outcome, either no [killProcess] is logged, or exactly one is, on what
    the lock file parses to, which is not [process.pid] and which the
    Liveness Oracle reported alive. *)
Theorem checkAlive_kills_only_recorded_owner (env : Env) (self : ServerManager)
        (fuel : nat) (port : Z) (w : World) :
  let w' := snd (checkAlive env self fuel port w) in
  filter isKill (trace w') = filter isKill (trace w)
  \/ exists contents,
      pidFile w = Present contents
      /\ strictEq (ParseInt.parseInt contents) (Num (processPid env)) = false
      /\ isRunning env (livenessQueries w) (ParseInt.parseInt contents) = true
      /\ filter isKill (trace w')
         = KillProcess (ParseInt.parseInt contents) :: filter isKill (trace w).
Proof.
  intro w'. subst w'.
  destruct (pidFile w) as [| contents | error] eqn:Hfile.
  - left. unfold checkAlive.
    rewrite (bind_returned _ _ _ _ _ (getServerPID_absent w Hfile)). reflexivity.
  - destruct (strictEq (ParseInt.parseInt contents) (Num (processPid env))) eqn:Hown.
    + left. unfold checkAlive.
      rewrite (bind_returned _ _ _ _ _ (getServerPID_present w contents Hfile)).
      cbn [isOwnPid]. rewrite Hown. reflexivity.
    + rewrite (checkAlive_named env self fuel port w contents Hfile Hown).
      destruct (isRunning env (livenessQueries w) (ParseInt.parseInt contents))
               eqn:Halive; [| left; reflexivity].
      pose proof (isSameVersion_keeps (logsOnly isObservation) env fuel port
                                      (_serverVersion self) (handshakeEntry w)) as Hlog.
      apply (logsOnly_filter isObservation isKill) in Hlog;
        [| intros [] E; (discriminate E || reflexivity)].
      cbn [handshakeEntry trace tickLiveness log filter isKill] in Hlog.
      unfold bind.
      destruct (isSameVersion env fuel port (_serverVersion self) (handshakeEntry w))
        as [[[] | thrown |] w1]; cbn [snd] in Hlog.
      * left. exact Hlog.
      * right. exists contents. repeat split; try assumption.
        unfold killProcess, remove, ret.
        cbn [snd trace setPidFile log filter isKill].
        rewrite Hlog. reflexivity.
      * left. exact Hlog.
      * left. exact Hlog.
  - left. unfold checkAlive, bind at 1.
    rewrite (getServerPID_unreadable w error Hfile).
    destruct (isENOENT error); reflexivity.
Qed.

(** ** [kill] *)

(** X7: [kill()] with no identifier supplied and none stored is a no-op: the
    lock file is missing (or reading it fails with [ENOENT]), nothing is
    terminated and no error is raised. *)
Theorem kill_nothing_to_kill (w : World) (error : JsError) :
  (pidFile w = Absent /\ error = enoent) \/ (pidFile w = Unreadable error) ->
  isENOENT error = true ->
  kill None w = (Returned tt, log FsReadFile w)
  /\ filter isKill (trace (log FsReadFile w)) = filter isKill (trace w).
Proof.
  intros Hfile Hcode. split; [| reflexivity].
  unfold kill.
  destruct Hfile as [[Hfile _] | Hfile].
  - rewrite (bind_returned _ _ _ _ _ (getServerPID_absent w Hfile)). reflexivity.
  - unfold bind. rewrite (getServerPID_unreadable w error Hfile), Hcode. reflexivity.
Qed.

Lemma kill_nothing_to_kill_witness :
  kill None (initial Absent) = (Returned tt, log FsReadFile (initial Absent))
  /\ filter isKill (trace (log FsReadFile (initial Absent)))
     = filter isKill (trace (initial Absent)).
Proof.
  apply (kill_nothing_to_kill (initial Absent) enoent).
  - left. split; reflexivity.
  - reflexivity.
Defined.

(** X8: [kill()] with no identifier supplied terminates whatever the lock
    file parses to, the [NaN] of a garbled file included, and leaves the file
    where it is. *)
Theorem kill_stored_owner (w : World) (contents : string) :
  pidFile w = Present contents ->
  kill None w
  = (Returned tt,
     log (KillProcess (ParseInt.parseInt contents)) (log FsReadFile w))
  /\ pidFile (snd (kill None w)) = Present contents.
Proof.
  intro Hfile.
  assert (Hrun : kill None w
                 = (Returned tt,
                    log (KillProcess (ParseInt.parseInt contents)) (log FsReadFile w))).
  { unfold kill.
    rewrite (bind_returned _ _ _ _ _ (getServerPID_present w contents Hfile)).
    reflexivity. }
  split; [exact Hrun |].
  rewrite Hrun. exact Hfile.
Qed.

Lemma kill_stored_owner_witness :
  kill None (initial (Present "abc"))
  = (Returned tt, log (KillProcess NaN) (log FsReadFile (initial (Present "abc"))))
  /\ pidFile (snd (kill None (initial (Present "abc")))) = Present "abc".
Proof.
  apply (kill_stored_owner (initial (Present "abc")) "abc"). reflexivity.
Defined.

(** X9: [kill] never clears the lock: whatever identifier is supplied or
    stored and whatever the outcome, the lock file is as it was and no
    [fs.remove] is logged; with an identifier supplied the file is not even
    read, and the only call is [killProcess] on that identifier. *)
Theorem kill_keeps_lock (optionsIn : option JsNum) (w : World) :
  let w' := snd (kill optionsIn w) in
  pidFile w' = pidFile w
  /\ filter isRemove (trace w') = filter isRemove (trace w)
  /\ forall p, optionsIn = Some p -> trace w' = KillProcess p :: trace w.
Proof.
  intro w'. subst w'. split; [| split].
  - apply (kill_keeps sameFile sameFile_killProcess).
  - apply (logsOnly_filter notRemove).
    + intros [] E; (discriminate E || reflexivity).
    + assert (Hobs : Observing (logsOnly notRemove))
        by (apply logsOnly_observing; intros [] E; (discriminate E || reflexivity)).
      apply (kill_keeps (logsOnly notRemove)).
      intro p. apply logsOnly_killProcess. reflexivity.
  - intros p ->. reflexivity.
Qed.

(** ** Writing the lock and reading it back *)

Module PrintFacts.
Import ParseInt.

Lemma scanDigits_uint_acc (d : Decimal.uint) :
  forall acc : positive,
    scanDigits (NilEmpty.string_of_uint d) (Some (Z.pos acc))
    = Some (Z.pos (Pos.of_uint_acc d acc)).
Proof.
  induction d as [| d IH | d IH | d IH | d IH | d IH | d IH | d IH | d IH | d IH | d IH];
    intro acc; cbn [NilEmpty.string_of_uint scanDigits Pos.of_uint_acc];
    [reflexivity | ..];
    (match goal with
     | |- context [digitValue ?c] =>
         let v := eval vm_compute in (digitValue c) in
         change (digitValue c) with v
     end);
    cbv iota; rewrite <- IH; f_equal; f_equal; lia.
Qed.

Lemma scanDigits_uint_zero (d : Decimal.uint) :
  scanDigits (NilEmpty.string_of_uint d) (Some 0) = Some (Z.of_N (Pos.of_uint d)).
Proof.
  induction d as [| d IH | d IH | d IH | d IH | d IH | d IH | d IH | d IH | d IH | d IH];
    cbn [NilEmpty.string_of_uint scanDigits Pos.of_uint];
    [reflexivity | ..];
    (match goal with
     | |- context [digitValue ?c] =>
         let v := eval vm_compute in (digitValue c) in
         change (digitValue c) with v
     end);
    cbv iota; cbn [Z.mul Z.add];
    first [ exact IH | apply scanDigits_uint_acc ].
Qed.

(** The decimal text of a positive number: it is not empty, it starts with a
    digit, and its digits read back as the number. *)
Lemma parseInt_positive_text (p : positive) (sign : Z) :
  let text := NilEmpty.string_of_uint (Pos.to_uint p) in
  trimStart text = text
  /\ splitSign text = (1, text)
  /\ scanDigits text None = Some (Z.pos p)
  /\ trimStart (String "-" text) = String "-" text.
Proof.
  intro text.
  assert (Hvalue : scanDigits text (Some 0) = Some (Z.pos p)).
  { unfold text. rewrite scanDigits_uint_zero, DecimalPos.Unsigned.of_to. reflexivity. }
  pose proof (DecimalPos.Unsigned.to_uint_nonnil p) as Hnonnil.
  unfold text in *. clear text.
  destruct (Pos.to_uint p) as [| d | d | d | d | d | d | d | d | d | d];
    [congruence | ..];
    cbn [NilEmpty.string_of_uint] in *;
    (repeat split;
     [ cbn [trimStart]; destruct (NilEmpty.string_of_uint d) as [| c2 [| c3 r3]]; reflexivity
     | exact Hvalue
     | cbn [trimStart];
       match goal with
       | |- context [String ?c (NilEmpty.string_of_uint d)] =>
           destruct (NilEmpty.string_of_uint d) as [| c3 r3]; reflexivity
       end ]).
Qed.

(** Parsing the decimal text of an integer gives the double nearest to it. *)
Lemma parseInt_printed (z : Z) :
  parseInt (numberToString (Num z)) = toNumber z.
Proof.
  destruct z as [| p | p]; [reflexivity | |];
    destruct (parseInt_positive_text p 1) as [Htrim [Hsign [Hscan Hminus]]];
    unfold numberToString, NilZero.string_of_int, Z.to_int, NilZero.string_of_uint.
  - pose proof (DecimalPos.Unsigned.to_uint_nonnil p) as Hnonnil.
    destruct (Pos.to_uint p) eqn:Hd; [congruence | ..];
      rewrite <- Hd in *; unfold parseInt; rewrite Htrim, Hsign, Hscan; reflexivity.
  - pose proof (DecimalPos.Unsigned.to_uint_nonnil p) as Hnonnil.
    destruct (Pos.to_uint p) eqn:Hd; [congruence | ..];
      rewrite <- Hd in *; unfold parseInt; rewrite Hminus;
      cbn [splitSign]; rewrite Hscan; reflexivity.
Qed.

(** Printing a safe integer and parsing the text gives the integer back. *)
Lemma parseInt_numberToString (z : Z) :
  - maxSafeInteger <= z <= maxSafeInteger ->
  parseInt (numberToString (Num z)) = Num z.
Proof.
  intro Hsafe. rewrite parseInt_printed.
  apply ParseIntFacts.toNumber_safe, Hsafe.
Qed.

End PrintFacts.

(** X10: the lock round-trips.  What [writePID] writes for an integer
    identifier (within the range in which JavaScript integers are exact) is
    read back by [getServerPID] as the same identifier, whatever the file held
    before; the same holds for [NaN].  (An infinity is left out: its text
    has no digit and is read back as [NaN].) *)
Theorem writePID_then_getServerPID (p : JsNum) (w : World) :
  match p with
  | Num z => - maxSafeInteger <= z <= maxSafeInteger
  | Infinity _ => False
  | NaN => True
  end ->
  fst (getServerPID (snd (writePID p w))) = Returned (Some p).
Proof.
  intro Hsafe.
  rewrite writePID_writes. cbn [snd].
  rewrite (getServerPID_present _ (numberToString p)) by reflexivity.
  cbn [fst]. do 2 f_equal.
  destruct p as [z | negative |];
    [apply PrintFacts.parseInt_numberToString, Hsafe | contradiction | reflexivity].
Qed.

Lemma writePID_then_getServerPID_witness :
  fst (getServerPID (snd (writePID (Num 4322) (initial (Present "stale")))))
  = Returned (Some (Num 4322)).
Proof.
  apply (writePID_then_getServerPID (Num 4322) (initial (Present "stale"))).
  unfold maxSafeInteger. lia.
Defined.

(** ** [start] and the lock *)

(** X11: a lock file that cannot be read, for a reason other than [ENOENT],
    stops [checkAlive] and [start] at once: the error of [fs.readFile] is
    thrown as it is, and nothing is asked, terminated, removed or launched. *)
Theorem start_unreadable_lock (env : Env) (self : ServerManager) (fuel : nat)
        (port : Z) (binary : Binary) (onStart : option Callback)
        (w : World) (error : JsError) :
  pidFile w = Unreadable error ->
  isENOENT error = false ->
  checkAlive env self fuel port w = (Thrown error, log FsReadFile w)
  /\ start env self fuel port binary onStart w = (Thrown error, log FsReadFile w).
Proof.
  intros Hfile Hcode.
  assert (Hcheck : checkAlive env self fuel port w = (Thrown error, log FsReadFile w)).
  { unfold checkAlive, bind at 1.
    rewrite (getServerPID_unreadable w error Hfile), Hcode. reflexivity. }
  split; [exact Hcheck |].
  unfold start. apply bind_thrown, Hcheck.
Qed.

Lemma start_unreadable_lock_witness :
  let w := initial (Unreadable Scenario.denied) in
  checkAlive Scenario.answering Scenario.server 3 8080 w
  = (Thrown Scenario.denied, log FsReadFile w)
  /\ start Scenario.answering Scenario.server 3 8080 Scenario.binary (Some 7%nat) w
     = (Thrown Scenario.denied, log FsReadFile w).
Proof.
  apply (start_unreadable_lock Scenario.answering Scenario.server 3 8080
                               Scenario.binary (Some 7%nat)
                               (initial (Unreadable Scenario.denied)) Scenario.denied);
    reflexivity.
Defined.

(** X12: what the lock file says after [start] has returned.  With
    [started: false] the file still names the returned owner; with
    [started: true] it names no owner, and the returned identifier is recorded
    only once the caller has passed it to [writePID]. *)
Theorem start_then_getServerPID (env : Env) (self : ServerManager) (fuel : nat)
        (port : Z) (binary : Binary) (onStart : option Callback)
        (w w' : World) (result : StartResult) :
  start env self fuel port binary onStart w = (Returned result, w') ->
  fst (getServerPID w')
  = Returned (if started result then None else Some (pid result))
  /\ (started result = true ->
      - maxSafeInteger <= childPid env (spawned w) <= maxSafeInteger ->
      pid result = Num (childPid env (spawned w))
      /\ fst (getServerPID (snd (writePID (pid result) w'))) = Returned (Some (pid result))).
Proof.
  intro Hstart.
  destruct (checkAlive env self fuel port w) as [[[p |] | thrown |] w1] eqn:Hcheck.
  - rewrite (start_owner env self fuel port binary onStart w w1 p Hcheck) in Hstart.
    injection Hstart as <- <-. cbn [started pid]. split.
    + exact (checkAlive_then_getServerPID env self fuel port w w1 (Some p) Hcheck).
    + discriminate.
  - pose proof (checkAlive_then_getServerPID env self fuel port w w1 None Hcheck)
      as Hnone.
    pose proof (checkAlive_keeps sameSpawned env sameSpawned_killProcess
                                 sameSpawned_remove self fuel port w) as Hcount.
    rewrite Hcheck in Hcount. unfold sameSpawned in Hcount. cbn [snd] in Hcount.
    rewrite (start_launches env self fuel port binary onStart w w1 Hcheck) in Hstart.
    assert (Hfile : pidFile w' = pidFile w1).
    { assert (K : keeps sameFile
                        (waitRunning env fuel (Num (childPid env (spawned w1))) ;;
                         waitReachable env fuel port ;;
                         ret (mkStartResult (Num (childPid env (spawned w1))) true)))
        by frame_with ltac:(apply waitRunning_keeps || apply waitReachable_keeps).
      specialize (K (launched env binary onStart w1)).
      rewrite Hstart in K. unfold sameFile in K. cbn [snd] in K.
      rewrite K. unfold launched. destruct onStart; reflexivity. }
    assert (Hresult : result = mkStartResult (Num (childPid env (spawned w1))) true).
    { revert Hstart. unfold bind.
      destruct (waitRunning env fuel (Num (childPid env (spawned w1)))
                            (launched env binary onStart w1)) as [[[] | e |] w3];
        try discriminate.
      destruct (waitReachable env fuel port w3) as [[[] | e |] w4];
        try discriminate.
      unfold ret. intros [= <- _]. reflexivity. }
    subst result. cbn [started pid]. split.
    + rewrite (getServerPID_by_file w1 w' Hfile). exact Hnone.
    + intros _ Hsafe. rewrite Hcount. split; [reflexivity |].
      rewrite writePID_writes. cbn [snd].
      rewrite (getServerPID_present _ (numberToString (Num (childPid env (spawned w)))))
        by reflexivity.
      cbn [fst]. rewrite (PrintFacts.parseInt_numberToString _ Hsafe). reflexivity.
  - unfold start in Hstart. rewrite (bind_thrown _ _ _ _ _ Hcheck) in Hstart.
    discriminate Hstart.
  - unfold start, bind in Hstart. rewrite Hcheck in Hstart. discriminate Hstart.
Qed.

Lemma start_then_getServerPID_witness :
  let w := initial (Present "abc") in
  let run := start Cases.restart Scenario.server 3 8080 Scenario.binary None w in
  run = (Returned (mkStartResult (Num 4322) true), snd run)
  /\ fst (getServerPID (snd run)) = Returned None
  /\ fst (getServerPID (snd (writePID (Num 4322) (snd run)))) = Returned (Some (Num 4322)).
Proof.
  cbv zeta.
  assert (Hrun : start Cases.restart Scenario.server 3 8080 Scenario.binary None
                       (initial (Present "abc"))
                 = (Returned (mkStartResult (Num 4322) true),
                    snd (start Cases.restart Scenario.server 3 8080 Scenario.binary None
                               (initial (Present "abc")))))
    by (vm_compute; reflexivity).
  destruct (start_then_getServerPID Cases.restart Scenario.server 3 8080 Scenario.binary
                                    None _ _ _ Hrun) as [Hlock Hwrite].
  split; [exact Hrun | split; [exact Hlock |]].
  apply Hwrite; [reflexivity | vm_compute; split; intro E; discriminate E].
Defined.

(** * [MultiProvider.js]: the chain of providers *)

Module MultiProviderFacts.
Import MultiProvider.

Lemma restoreFrom_unable (before rest : list Provider.t) :
  Forall (fun provider => Provider.canRestore provider = Resolved false) before ->
  forall i calls,
    restoreFrom i (before ++ rest) calls
    = restoreFrom (i + List.length before) rest (asked i (List.length before) ++ calls)%list.
Proof.
  induction 1 as [| provider before Hprovider _ IH]; intros i calls.
  - cbn. rewrite Nat.add_0_r. reflexivity.
  - cbn [app restoreFrom List.length asked]. rewrite Hprovider, IH.
    rewrite <- app_assoc. cbn [app].
    replace (S i + List.length before)%nat with (i + S (List.length before))%nat by lia.
    reflexivity.
Qed.

Lemma backupFrom_done (tmp : string) (before rest : list Provider.t) :
  Forall (fun provider => Provider.backup provider = Resolved tt) before ->
  forall i calls,
    backupFrom tmp i (before ++ rest) calls
    = backupFrom tmp (i + List.length before) rest
                 (backedUp tmp i (List.length before) ++ calls)%list.
Proof.
  induction 1 as [| provider before Hprovider _ IH]; intros i calls.
  - cbn. rewrite Nat.add_0_r. reflexivity.
  - cbn [app backupFrom List.length backedUp]. rewrite Hprovider, IH.
    rewrite <- app_assoc. cbn [app].
    replace (S i + List.length before)%nat with (i + S (List.length before))%nat by lia.
    reflexivity.
Qed.

Lemma restoreFrom_restores_once (providers : list Provider.t) :
  forall i calls,
    (List.length (filter isRestore (snd (restoreFrom i providers calls)))
     <= S (List.length (filter isRestore calls)))%nat.
Proof.
  induction providers as [| provider rest IH]; intros i calls; cbn [restoreFrom].
  - cbn. lia.
  - destruct (Provider.canRestore provider) as [[|] | error].
    + destruct (Provider.restore provider); cbn; lia.
    + specialize (IH (S i) (CanRestore i :: calls)). cbn in IH. exact IH.
    + cbn. lia.
Qed.

Lemma backedUp_length (tmp : string) (n : nat) :
  forall i, List.length (backedUp tmp i n) = (3 * n)%nat.
Proof.
  induction n as [| n IH]; intro i; [reflexivity |].
  cbn [backedUp]. rewrite List.length_app, IH. cbn. lia.
Qed.

End MultiProviderFacts.

(** X13: [restore] restores from the first provider that can.  The providers
    before it answer that they cannot and are only asked; the chosen one is
    asked and restored from, its failure (if it fails) is thrown; the
    providers after it are not even asked. *)
Theorem MultiProvider_restore_first_able (self : MultiProvider.t)
        (before after : list Provider.t) (chosen : Provider.t)
        (calls : list MultiProvider.Call) :
  MultiProvider._providers self = (before ++ chosen :: after)%list ->
  Forall (fun provider => Provider.canRestore provider = Resolved false) before ->
  Provider.canRestore chosen = Resolved true ->
  MultiProvider.restore self calls
  = (match Provider.restore chosen with
     | Resolved _ => Returned tt
     | Rejected error => Thrown error
     end,
     MultiProvider.Restore (List.length before)
       :: MultiProvider.CanRestore (List.length before)
       :: (MultiProvider.asked 0 (List.length before) ++ calls)%list).
Proof.
  intros Hself Hbefore Hchosen.
  unfold MultiProvider.restore. rewrite Hself.
  rewrite (MultiProviderFacts.restoreFrom_unable before _ Hbefore).
  cbn [MultiProvider.restoreFrom Nat.add]. rewrite Hchosen.
  destruct (Provider.restore chosen); reflexivity.
Qed.

Lemma MultiProvider_restore_first_able_witness :
  MultiProvider.restore
    (MultiProvider.mk [MultiProvider.unable; MultiProvider.unable; MultiProvider.able;
                       MultiProvider.broken] "/tmp/backup") []
  = (Returned tt,
     [MultiProvider.Restore 2; MultiProvider.CanRestore 2;
      MultiProvider.CanRestore 1; MultiProvider.CanRestore 0]).
Proof.
  apply (MultiProvider_restore_first_able
           (MultiProvider.mk [MultiProvider.unable; MultiProvider.unable;
                              MultiProvider.able; MultiProvider.broken] "/tmp/backup")
           [MultiProvider.unable; MultiProvider.unable] [MultiProvider.broken]
           MultiProvider.able []).
  - reflexivity.
  - repeat constructor.
  - reflexivity.
Defined.

(** X14: when no provider can restore (or there is none), [restore] returns
    normally without restoring anything: every provider has been asked once,
    in order, and that is all. *)
Theorem MultiProvider_restore_none_able (self : MultiProvider.t)
        (calls : list MultiProvider.Call) :
  Forall (fun provider => Provider.canRestore provider = Resolved false)
         (MultiProvider._providers self) ->
  MultiProvider.restore self calls
  = (Returned tt,
     (MultiProvider.asked 0 (List.length (MultiProvider._providers self)) ++ calls)%list).
Proof.
  intro Hnone. unfold MultiProvider.restore.
  rewrite <- (app_nil_r (MultiProvider._providers self)) at 1.
  rewrite (MultiProviderFacts.restoreFrom_unable _ [] Hnone). reflexivity.
Qed.

Lemma MultiProvider_restore_none_able_witness :
  MultiProvider.restore
    (MultiProvider.mk [MultiProvider.unable; MultiProvider.unable] "/tmp/backup") []
  = (Returned tt, [MultiProvider.CanRestore 1; MultiProvider.CanRestore 0])
  /\ MultiProvider.restore (MultiProvider.mk [] "/tmp/backup") [] = (Returned tt, []).
Proof.
  split.
  - apply (MultiProvider_restore_none_able
             (MultiProvider.mk [MultiProvider.unable; MultiProvider.unable] "/tmp/backup")
             []).
    repeat constructor.
  - apply (MultiProvider_restore_none_able (MultiProvider.mk [] "/tmp/backup") []).
    constructor.
Defined.

(** X15: whatever the providers answer, [restore] restores from at most one
    of them. *)
Theorem MultiProvider_restore_at_most_once (self : MultiProvider.t)
        (calls : list MultiProvider.Call) :
  (List.length (filter MultiProvider.isRestore (snd (MultiProvider.restore self calls)))
   <= S (List.length (filter MultiProvider.isRestore calls)))%nat.
Proof. apply MultiProviderFacts.restoreFrom_restores_once. Qed.

(** X16: [backup] runs the providers in order and empties the temporary
    directory after each one; the first backup that fails ends the chain with
    its error: the temporary directory is not cleaned after it and the
    providers after it are not backed up. *)
Theorem MultiProvider_backup_stops_at_failure (self : MultiProvider.t)
        (before after : list Provider.t) (failing : Provider.t) (error : JsError)
        (calls : list MultiProvider.Call) :
  MultiProvider._providers self = (before ++ failing :: after)%list ->
  Forall (fun provider => Provider.backup provider = Resolved tt) before ->
  Provider.backup failing = Rejected error ->
  MultiProvider.backup self calls
  = (Thrown error,
     MultiProvider.Backup (List.length before)
       :: (MultiProvider.backedUp (MultiProvider.tmpPath self) 0 (List.length before)
           ++ calls)%list).
Proof.
  intros Hself Hbefore Hfailing.
  unfold MultiProvider.backup. rewrite Hself.
  rewrite (MultiProviderFacts.backupFrom_done _ before _ Hbefore).
  cbn [MultiProvider.backupFrom Nat.add]. rewrite Hfailing. reflexivity.
Qed.

Lemma MultiProvider_backup_stops_at_failure_witness :
  MultiProvider.backup
    (MultiProvider.mk [MultiProvider.able; MultiProvider.broken; MultiProvider.able]
                      "/tmp/backup") []
  = (Thrown (mkError None "backup failed"),
     [MultiProvider.Backup 1;
      MultiProvider.EnsureDir "/tmp/backup"; MultiProvider.Remove "/tmp/backup";
      MultiProvider.Backup 0]).
Proof.
  apply (MultiProvider_backup_stops_at_failure
           (MultiProvider.mk [MultiProvider.able; MultiProvider.broken;
                              MultiProvider.able] "/tmp/backup")
           [MultiProvider.able] [MultiProvider.able] MultiProvider.broken
           (mkError None "backup failed") []).
  - reflexivity.
  - repeat constructor.
  - reflexivity.
Defined.

(** X17: when every backup goes through, [backup] returns after as many
    rounds as there are providers, each round being the provider's backup,
    then [fs.remove] and [fs.ensureDir] of the temporary directory. *)
Theorem MultiProvider_backup_all (self : MultiProvider.t)
        (calls : list MultiProvider.Call) :
  Forall (fun provider => Provider.backup provider = Resolved tt)
         (MultiProvider._providers self) ->
  MultiProvider.backup self calls
  = (Returned tt,
     (MultiProvider.backedUp (MultiProvider.tmpPath self) 0
                             (List.length (MultiProvider._providers self)) ++ calls)%list)
  /\ List.length (MultiProvider.backedUp (MultiProvider.tmpPath self) 0
                                    (List.length (MultiProvider._providers self)))
     = (3 * List.length (MultiProvider._providers self))%nat.
Proof.
  intro Hall. split.
  - unfold MultiProvider.backup.
    rewrite <- (app_nil_r (MultiProvider._providers self)) at 1.
    rewrite (MultiProviderFacts.backupFrom_done _ _ [] Hall). reflexivity.
  - apply MultiProviderFacts.backedUp_length.
Qed.

Lemma MultiProvider_backup_all_witness :
  MultiProvider.backup
    (MultiProvider.mk [MultiProvider.able; MultiProvider.unable] "/tmp/backup") []
  = (Returned tt,
     [MultiProvider.EnsureDir "/tmp/backup"; MultiProvider.Remove "/tmp/backup";
      MultiProvider.Backup 1;
      MultiProvider.EnsureDir "/tmp/backup"; MultiProvider.Remove "/tmp/backup";
      MultiProvider.Backup 0])
  /\ List.length (MultiProvider.backedUp "/tmp/backup" 0 2) = 6%nat.
Proof.
  apply (MultiProvider_backup_all
           (MultiProvider.mk [MultiProvider.able; MultiProvider.unable] "/tmp/backup") []).
  repeat constructor.
Defined.

(** * [SmartContractResource.js]: creating and reopening a resource *)

Module SmartContractResourceFacts.
Import SmartContractResource.

(** Settling the hash writes nothing, whatever comes of it. *)
Lemma settleHash_disk (chain : Chain) (options : NewOptions) (d : Disk) :
  files (snd (settleHash chain options d)) = files d
  /\ filter isDiskWrite (calls (snd (settleHash chain options d)))
     = filter isDiskWrite (calls d).
Proof.
  unfold settleHash.
  destruct (newContract options) as [contract |].
  - destruct (newWallet options) as [walletName |]; [| split; reflexivity].
    destruct (getWallet chain walletName) as [address | error]; [| split; reflexivity].
    destruct (publish chain (register contract) address) as [[[hash | message] | error] | error];
      split; reflexivity.
  - destruct (newHash options); split; reflexivity.
Qed.

Lemma property_config (hash : string) (contractName : option string) :
  property "hash" (match configOf hash contractName with
                   | JObject fields => fields
                   | _ => []
                   end) = Some (JString hash)
  /\ property "contractName" (match configOf hash contractName with
                              | JObject fields => fields
                              | _ => []
                              end) = option_map JString contractName.
Proof. destruct contractName; split; reflexivity. Qed.

End SmartContractResourceFacts.

(** X18: when [createNew] fails with an error of its own (one of the three
    missing-option errors, or the message of a publication that did not
    halt), the disk has not been touched: no directory has been made and no
    file written.  (A rejection passed on from a collaborator may come from
    [fs.ensureDir] or [fs.writeJSON] themselves and is left out.) *)
Theorem createNew_own_failure_writes_nothing (chain : SmartContractResource.Chain)
        (options : SmartContractResource.NewOptions) (d : SmartContractResource.Disk)
        (f : SmartContractResource.Failure) :
  fst (SmartContractResource.createNew chain options d) = SmartContractResource.Failed f ->
  (forall error, f <> SmartContractResource.Rejection error) ->
  let d' := snd (SmartContractResource.createNew chain options d) in
  SmartContractResource.files d' = SmartContractResource.files d
  /\ filter SmartContractResource.isDiskWrite (SmartContractResource.calls d')
     = filter SmartContractResource.isDiskWrite (SmartContractResource.calls d).
Proof.
  unfold SmartContractResource.createNew.
  destruct (SmartContractResource.extract chain (SmartContractResource.newName options))
    as [baseName networkName].
  destruct (SmartContractResource.newAbi options) as [abi |];
    [| intros _ _; split; reflexivity].
  pose proof (SmartContractResourceFacts.settleHash_disk chain options d) as Hdisk.
  destruct (SmartContractResource.settleHash chain options d)
    as [[[hash contractName] | failure] d1]; cbn [fst snd] in *.
  - destruct (SmartContractResource.ensuresDir
                chain (SmartContractResource.newDataPath options)) as [[] | error].
    + destruct (SmartContractResource.writes chain _) as [[] | e1];
        [destruct (SmartContractResource.writes chain _) as [[] | e2] |];
        cbn [fst]; intros [= <-] Hown;
        try discriminate; exfalso; eapply Hown; reflexivity.
    + cbn [fst]. intros [= <-] Hown. exfalso. eapply Hown. reflexivity.
  - intros _ _. exact Hdisk.
Qed.

Lemma createNew_own_failure_writes_nothing_witness :
  let options := SmartContractResource.mkNew
                   "token.priv" (Some (SmartContractResource.JObject []))
                   (Some (SmartContractResource.mkContract "Token" "token-register"))
                   (Some "0x123") (Some "main") "/data/token" in
  let run := SmartContractResource.createNew SmartContractResource.faulting options
                                             SmartContractResource.empty in
  fst run = SmartContractResource.Failed (SmartContractResource.PublishError "out of gas")
  /\ SmartContractResource.files (snd run)
     = SmartContractResource.files SmartContractResource.empty
  /\ filter SmartContractResource.isDiskWrite (SmartContractResource.calls (snd run))
     = [].
Proof.
  cbv zeta. split; [reflexivity |].
  apply (createNew_own_failure_writes_nothing
           SmartContractResource.faulting _ SmartContractResource.empty
           (SmartContractResource.PublishError "out of gas")).
  - reflexivity.
  - intros error E. discriminate E.
Defined.

(** X19: the options of [createNew] are checked before anything is called,
    the ABI first.  Without an ABI the failure is [ABIRequiredError] whatever
    else is missing; with an ABI, a contract without a wallet fails with
    [WalletRequiredError] and neither contract nor hash with
    [ContractOrHashRequiredError]; in each case nothing at all is logged. *)
Theorem createNew_checks_options_first (chain : SmartContractResource.Chain)
        (options : SmartContractResource.NewOptions) (d : SmartContractResource.Disk) :
  SmartContractResource.newAbi options = None
  \/ (SmartContractResource.newContract options <> None
      /\ SmartContractResource.newWallet options = None)
  \/ (SmartContractResource.newContract options = None
      /\ SmartContractResource.newHash options = None) ->
  SmartContractResource.createNew chain options d
  = (SmartContractResource.Failed
       (match SmartContractResource.newAbi options,
              SmartContractResource.newContract options with
        | None, _ => SmartContractResource.ABIRequiredError
        | Some _, Some _ => SmartContractResource.WalletRequiredError
        | Some _, None => SmartContractResource.ContractOrHashRequiredError
        end), d).
Proof.
  intro Hinvalid.
  unfold SmartContractResource.createNew, SmartContractResource.settleHash.
  destruct (SmartContractResource.extract chain (SmartContractResource.newName options))
    as [baseName networkName].
  destruct (SmartContractResource.newAbi options) as [abi |]; [| reflexivity].
  destruct Hinvalid as [Habi | [[Hcontract Hwallet] | [Hcontract Hhash]]].
  - discriminate Habi.
  - destruct (SmartContractResource.newContract options); [| congruence].
    rewrite Hwallet. reflexivity.
  - rewrite Hcontract, Hhash. reflexivity.
Qed.

Lemma createNew_checks_options_first_witness :
  SmartContractResource.createNew
    SmartContractResource.local
    (SmartContractResource.mkNew
       "token.priv" None
       (Some (SmartContractResource.mkContract "Token" "token-register"))
       None None "/data/token")
    SmartContractResource.empty
  = (SmartContractResource.Failed SmartContractResource.ABIRequiredError,
     SmartContractResource.empty).
Proof.
  apply (createNew_checks_options_first
           SmartContractResource.local
           (SmartContractResource.mkNew
              "token.priv" None
              (Some (SmartContractResource.mkContract "Token" "token-register"))
              None None "/data/token")
           SmartContractResource.empty).
  left. reflexivity.
Defined.

(** X20: a resource made by [createNew] and reopened by [createExisting]
    keeps its name, paths, hash and contract name, but not its ABI: the ABI
    file is written from [JSON.stringify(abi)], so what is read back is that
    text as a string, which is not the ABI object that was passed. *)
Theorem createNew_then_createExisting (chain : SmartContractResource.Chain)
        (options : SmartContractResource.NewOptions)
        (d d' : SmartContractResource.Disk) (resource : SmartContractResource.t)
        (abi : SmartContractResource.Json) :
  SmartContractResource.newAbi options = Some abi ->
  SmartContractResource._getConfigPath chain (SmartContractResource.newDataPath options)
  <> SmartContractResource._getABIPath chain (SmartContractResource.newDataPath options) ->
  SmartContractResource.createNew chain options d
  = (SmartContractResource.Fulfilled resource, d') ->
  let text := SmartContractResource.JString (SmartContractResource.stringify chain abi) in
  fst (SmartContractResource.createExisting
         chain (SmartContractResource.newName options)
         (SmartContractResource.newDataPath options) d')
  = SmartContractResource.Fulfilled
      (SmartContractResource.mk
         (SmartContractResource._name resource)
         (SmartContractResource._baseName resource)
         (SmartContractResource._networkName resource)
         (SmartContractResource._dataPath resource)
         (SmartContractResource._configPath resource)
         (SmartContractResource._abiPath resource)
         (SmartContractResource._hash resource)
         (SmartContractResource._contractName resource)
         text)
  /\ SmartContractResource._abi resource = abi
  /\ ((forall s, abi <> SmartContractResource.JString s) -> text <> abi).
Proof.
  intros Habi Hpaths Hnew text.
  unfold SmartContractResource.createNew in Hnew.
  unfold SmartContractResource.createExisting.
  destruct (SmartContractResource.extract chain (SmartContractResource.newName options))
    as [baseName networkName].
  rewrite Habi in Hnew.
  destruct (SmartContractResource.settleHash chain options d)
    as [[[hash contractName] | failure] d1]; [| discriminate Hnew].
  set (configPath := SmartContractResource._getConfigPath
                       chain (SmartContractResource.newDataPath options)) in *.
  set (abiPath := SmartContractResource._getABIPath
                    chain (SmartContractResource.newDataPath options)) in *.
  destruct (SmartContractResource.ensuresDir
              chain (SmartContractResource.newDataPath options)) as [[] | error];
    [| discriminate Hnew].
  destruct (SmartContractResource.writes chain configPath) as [[] | e1] eqn:Hconfig;
    [| discriminate Hnew].
  destruct (SmartContractResource.writes chain abiPath) as [[] | e2] eqn:Hwritten;
    [| discriminate Hnew].
  injection Hnew as <- <-.
  unfold SmartContractResource.readJSON.
  cbn [SmartContractResource.files SmartContractResource.writeJSON
       SmartContractResource.logCall].
  apply String.eqb_neq in Hpaths. rewrite Hpaths.
  rewrite !String.eqb_refl, Hconfig.
  cbn [SmartContractResource.destructure SmartContractResource.configOf].
  destruct (SmartContractResourceFacts.property_config hash contractName) as [Hh Hc].
  cbn [SmartContractResource.configOf] in Hh, Hc. rewrite Hh, Hc.
  cbn [SmartContractResource.files SmartContractResource.writeJSON
       SmartContractResource.logCall].
  rewrite !String.eqb_refl, Hwritten.
  split; [reflexivity | split; [reflexivity |]].
  intros Hobject Heq. exact (Hobject _ (eq_sym Heq)).
Qed.

Lemma createNew_then_createExisting_witness :
  let options := SmartContractResource.mkNew
                   "token.priv" (Some (SmartContractResource.JObject []))
                   (Some (SmartContractResource.mkContract "Token" "token-register"))
                   (Some "0x123") (Some "main") "/data/token" in
  let made := SmartContractResource.createNew SmartContractResource.local options
                                              SmartContractResource.empty in
  fst made
  = SmartContractResource.Fulfilled
      (SmartContractResource.mk
         "token.priv" "token.priv" "priv" "/data/token"
         "/data/token/config.json" "/data/token/abi.json"
         (Some (SmartContractResource.JString "0xabc"))
         (Some (SmartContractResource.JString "Token"))
         (SmartContractResource.JObject []))
  /\ fst (SmartContractResource.createExisting
            SmartContractResource.local "token.priv" "/data/token" (snd made))
     = SmartContractResource.Fulfilled
         (SmartContractResource.mk
            "token.priv" "token.priv" "priv" "/data/token"
            "/data/token/config.json" "/data/token/abi.json"
            (Some (SmartContractResource.JString "0xabc"))
            (Some (SmartContractResource.JString "Token"))
            (SmartContractResource.JString "{}")).
Proof.
  cbv zeta. split; [reflexivity |].
  destruct (createNew_then_createExisting
              SmartContractResource.local
              (SmartContractResource.mkNew
                 "token.priv" (Some (SmartContractResource.JObject []))
                 (Some (SmartContractResource.mkContract "Token" "token-register"))
                 (Some "0x123") (Some "main") "/data/token")
              SmartContractResource.empty _ _ (SmartContractResource.JObject [])
              eq_refl ltac:(discriminate) eq_refl) as [Hreopened _].
  exact Hreopened.
Defined.

(** * The wiring of interactive commands *)

(** X21: the post hooks of a command run exactly when its pre hooks and its
    function both went through and the user did not cancel during either.
    A cancellation left over from an earlier run does not count: the flag is
    reset when the action starts; and for a command without [_cancel] no
    cancellation counts at all. *)
Theorem action_runs_post_hooks (command : Commands.Command)
        (pre fn post : Commands.Await) (s : Commands.State) :
  let wanted :=
    match Commands.settles pre, Commands.settles fn with
    | Resolved _, Resolved _ =>
        negb (Commands.hasCancel command
              && (Commands.interrupted pre || Commands.interrupted fn))
    | _, _ => false
    end in
  filter Commands.isPostHooks (Commands.calls (snd (Commands.action command pre fn post s)))
  = ((if wanted then [Commands.PostHooks (Commands._name command)] else [])
       ++ filter Commands.isPostHooks (Commands.calls s))%list.
Proof.
  destruct command as [name cancellable], pre as [[[] | e1] i1 n1],
           fn as [[[] | e2] i2 n2], post as [[[] | e3] i3 n3], s as [flag log0];
    destruct cancellable, i1, i2, i3, n1, n2, n3; reflexivity.
Qed.

(** X22: the action of a command reports the first failure among the pre
    hooks, the function and (when they run) the post hooks once, by
    [ora(error.message).fail()] and then [logError] under the command's name,
    and then resolves; without a failure nothing is reported.  The one
    exception is a rejection whose value is [null] or [undefined]: reading
    its [message] throws, so the action rejects with that [TypeError] and
    reports nothing. *)
Theorem action_reports_failure (command : Commands.Command)
        (pre fn post : Commands.Await) (s : Commands.State) :
  let postRuns :=
    negb (Commands.hasCancel command
          && (Commands.interrupted pre || Commands.interrupted fn)) in
  let failure :=
    match Commands.settles pre, Commands.settles fn, Commands.settles post with
    | Rejected error, _, _ => Some (error, Commands.nullish pre)
    | Resolved _, Rejected error, _ => Some (error, Commands.nullish fn)
    | Resolved _, Resolved _, Rejected error =>
        if postRuns then Some (error, Commands.nullish post) else None
    | Resolved _, Resolved _, Resolved _ => None
    end in
  let run := Commands.action command pre fn post s in
  fst run = match failure with
            | Some (_, true) => Thrown Commands.noMessage
            | _ => Returned tt
            end
  /\ filter Commands.isReport (Commands.calls (snd run))
     = (match failure with
        | Some (error, false) =>
            [Commands.LogError (Commands._name command) error;
             Commands.Fail (message error)]
        | _ => []
        end ++ filter Commands.isReport (Commands.calls s))%list.
Proof.
  destruct command as [name cancellable], pre as [[[] | e1] i1 n1],
           fn as [[[] | e2] i2 n2], post as [[[] | e3] i3 n3], s as [flag log0];
    destruct cancellable, i1, i2, i3, n1, n2, n3; split; reflexivity.
Qed.
